(** * Gravity Agents: the physics environment server and its tasks

    A shallow embedding of [web-env/server.js], [web-env/src/physics/PhysicsWorld.js]
    and the four task classes under [web-env/src/tasks/], followed by the
    properties of the environment's reset/step protocol.

    JavaScript numbers are IEEE-754 binary64 values, so they are modelled by
    Rocq's primitive [float]; counters that the code only ever increments by
    one from zero ([successSteps], [stepCount]) and the millisecond clock are
    kept as [nat] and [Z]. *)

From Stdlib Require Import ZArith Floats Uint63 String Ascii List Bool Lia.
From stdpp Require Import gmap strings.
Import ListNotations.

Local Open Scope string_scope.
Set Warnings "-inexact-float".

(** ** The host language *)

Module JS.

(** What a call completes with: a value, or a thrown exception. *)
Inductive error :=
| Error (message : string)
| TypeError (message : string).

Inductive completion (A : Type) :=
| Normal (value : A)
| Throw (e : error).
Arguments Normal {A} value.
Arguments Throw {A} e.

(** The [action] field of a step request. The protocol types it as a
    string or a number, and these are the values modelled. *)
Inductive value :=
| Num (n : float)
| Str (s : string).

(** [x || d] and [if (x)] on numbers: [0], [-0] and [NaN] are falsy. *)
Definition truthy (n : float) : bool :=
  negb (PrimFloat.eqb n 0%float || PrimFloat.is_nan n).

Definition Math_abs (a : float) : float := PrimFloat.abs a.
Definition Math_sqrt (a : float) : float := PrimFloat.sqrt a.

(** [Math.max] and [Math.min]: [NaN] is contagious and [+0] is larger than [-0]. *)
Definition Math_max (a b : float) : float :=
  if PrimFloat.is_nan a || PrimFloat.is_nan b then PrimFloat.nan
  else if PrimFloat.ltb a b then b
  else if PrimFloat.ltb b a then a
  else if PrimFloat.get_sign a then b else a.

Definition Math_min (a b : float) : float :=
  if PrimFloat.is_nan a || PrimFloat.is_nan b then PrimFloat.nan
  else if PrimFloat.ltb a b then a
  else if PrimFloat.ltb b a then b
  else if PrimFloat.get_sign a then a else b.

Definition Math_PI : float := 0x1.921fb54442d18p+1%float.

(** The integer part of a finite number (rounding toward zero); [0] for
    [NaN] and the infinities, as [ToInt32] needs it. *)
Definition truncate (a : float) : Z :=
  match Prim2SF a with
  | S754_finite sign m e =>
      let magnitude :=
        match e with
        | Z0 => Z.pos m
        | Zpos k => Z.shiftl (Z.pos m) (Z.pos k)
        | Zneg k => Z.shiftr (Z.pos m) (Z.pos k)
        end in
      if sign then (- magnitude)%Z else magnitude
  | _ => 0%Z
  end.

(** [ToInt32]: the number modulo 2^32, read as a signed 32-bit integer. *)
Definition ToInt32 (a : float) : Z :=
  let r := (truncate a mod 2 ^ 32)%Z in
  if (2 ^ 31 <=? r)%Z then (r - 2 ^ 32)%Z else r.

(** [a & b] on numbers; the result is a signed 32-bit integer. *)
Definition bitand (a b : float) : Z := Z.land (ToInt32 a) (ToInt32 b).

(** A non-negative integer below 2^63 as a number. *)
Definition of_Z (n : Z) : float := PrimFloat.of_uint63 (Uint63.of_Z n).

(** [String.prototype.toLowerCase] on the ASCII strings the protocol uses. *)
Definition lower_ascii (c : ascii) : ascii :=
  let n := nat_of_ascii c in
  if (65 <=? n)%nat && (n <=? 90)%nat then ascii_of_nat (n + 32) else c.

Fixpoint toLowerCase (s : string) : string :=
  match s with
  | EmptyString => EmptyString
  | String c rest => String (lower_ascii c) (toLowerCase rest)
  end.

(** [array[n]] for a number [n]: the element whose index equals [n], and
    [undefined] ([None]) for fractions, negatives, [NaN] and indices past
    the end. *)
Fixpoint array_get_from (i : Z) (l : list string) (n : float) : option string :=
  match l with
  | [] => None
  | s :: rest =>
      if PrimFloat.eqb n (of_Z i) then Some s
      else array_get_from (i + 1) rest n
  end.

Definition array_get (l : list string) (n : float) : option string :=
  array_get_from 0 l n.

End JS.

(** ** The physics backend

    [PhysicsWorld] wraps a [CANNON.World]. The engine is an external library:
    its private state is an abstract type and its [step] a function of the
    host. [step] mutates the body objects it was given in place; it has no
    access to the wrapper's [bodies] map, so it cannot add or remove a name. *)

Record Vec3 := mkVec3 { x : float; y : float; z : float }.

Inductive Shape :=
| Box (halfExtents : Vec3)
| Capsule (radius cylinderHeight : float).

Record Body := mkBody {
  position : Vec3;
  velocity : Vec3;
  mass : float;
  shape : Shape;
  fixedRotation : bool;
  linearDamping : float
}.

Definition set_position (b : Body) (p : Vec3) : Body :=
  mkBody p (velocity b) (mass b) (shape b) (fixedRotation b) (linearDamping b).
Definition set_velocity (b : Body) (v : Vec3) : Body :=
  mkBody (position b) v (mass b) (shape b) (fixedRotation b) (linearDamping b).
Definition set_linearDamping (b : Body) (d : float) : Body :=
  mkBody (position b) (velocity b) (mass b) (shape b) (fixedRotation b) d.
Definition set_x (v : Vec3) (a : float) : Vec3 := mkVec3 a (y v) (z v).
Definition set_y (v : Vec3) (a : float) : Vec3 := mkVec3 (x v) a (z v).
Definition set_z (v : Vec3) (a : float) : Vec3 := mkVec3 (x v) (y v) a.

Class Host := {
  (** the private state of a [CANNON.World] *)
  Engine : Type;
  (** [new CANNON.World()] with the solver settings of the constructor *)
  CANNON_World : Engine;
  (** [world.step(dt)] under a gravity: the engine's next state and the next
      state of each named body *)
  CANNON_step : float -> float -> Engine -> list (string * Body) ->
                Engine * (string -> Body -> Body);
  Math_cos : float -> float;
  Math_sin : float -> float
}.

Module PhysicsWorld.
Section WithHost.
Context `{Host}.
Local Open Scope float_scope.

Record t := mk {
  gravity : float;
  timeStep : float;
  world : Engine;
  bodies : list (string * Body)
}.

Definition new (gravity timeStep : float) : t :=
  mk gravity timeStep CANNON_World [].

(** [Map.prototype.get] and [Map.prototype.set] on the [bodies] map, which
    keeps insertion order. *)
Fixpoint Map_get (m : list (string * Body)) (name : string) : option Body :=
  match m with
  | [] => None
  | (k, b) :: rest => if String.eqb k name then Some b else Map_get rest name
  end.

Fixpoint Map_set (m : list (string * Body)) (name : string) (b : Body)
  : list (string * Body) :=
  match m with
  | [] => [(name, b)]
  | (k, b0) :: rest =>
      if String.eqb k name then (k, b) :: rest else (k, b0) :: Map_set rest name b
  end.

Definition step (w : t) : t :=
  let '(e, next) := CANNON_step (gravity w) (timeStep w) (world w) (bodies w) in
  mk (gravity w) (timeStep w) e (map (fun kb => (fst kb, next (fst kb) (snd kb))) (bodies w)).

Definition addBody (w : t) (name : string) (body : Body) : t :=
  mk (gravity w) (timeStep w) (world w) (Map_set (bodies w) name body).

Definition getBody (w : t) (name : string) : option Body :=
  Map_get (bodies w) name.

(** A write through a body reference obtained from [getBody]. *)
Definition putBody (w : t) (name : string) (body : Body) : t :=
  mk (gravity w) (timeStep w) (world w) (Map_set (bodies w) name body).

Definition createBox (w : t) (name : string) (position size : Vec3) (mass : float) : t :=
  let halfExtents := mkVec3 (x size / 2) (y size / 2) (z size / 2) in
  addBody w name (mkBody position (mkVec3 0 0 0) mass (Box halfExtents) false 0.01).

Definition createCapsule (w : t) (name : string) (position : Vec3)
    (radius height mass : float) : t :=
  let cylinderHeight := height - 2 * radius in
  addBody w name (mkBody position (mkVec3 0 0 0) mass (Capsule radius cylinderHeight) true 0.01).

(** [getBodyState]: position and velocity copied out, [null] when absent. *)
Definition getBodyState (w : t) (name : string) : option (Vec3 * Vec3) :=
  match Map_get (bodies w) name with
  | None => None
  | Some body => Some (position body, velocity body)
  end.

End WithHost.
End PhysicsWorld.

(** ** Configuration and the shared task contract *)

(** The merged configuration of a session: [DEFAULT_CONFIG] under the
    caller's object. [taskVersion] and the task-specific overrides have no
    default, so they may be absent. *)
Module Config.

Record t := mk {
  task : string;
  taskVersion : option string;
  gravity : float;
  seed : float;
  maxSteps : Z;
  physicsTicksPerStep : Z;
  timeStep : float;
  gapWidth : option float;
  gapVariance : option float;
  goalPlatformWidth : option float;
  landingZoneWidth : option float;
  landingZoneStart : option float;
  landingZoneEnd : option float;
  basketDistance : option float;
  basketDistanceVariance : option float;
  basketHeight : option float
}.

Definition set_seed (c : t) (s : float) : t :=
  mk (task c) (taskVersion c) (gravity c) s (maxSteps c) (physicsTicksPerStep c)
    (timeStep c) (gapWidth c) (gapVariance c) (goalPlatformWidth c) (landingZoneWidth c)
    (landingZoneStart c) (landingZoneEnd c) (basketDistance c) (basketDistanceVariance c)
    (basketHeight c).

End Config.

(** [a ?? d] *)
Definition nullish {A : Type} (a : option A) (d : A) : A :=
  match a with Some v => v | None => d end.

Module TerminationResult.
Record t := mk {
  done : bool;
  success : bool;
  reason : string
}.
End TerminationResult.

Record Bounds := mkBounds {
  minX : float; maxX : float;
  minY : float; maxY : float;
  minZ : float; maxZ : float
}.

Definition inside (b : Bounds) (pos : Vec3) : bool :=
  (PrimFloat.leb (minX b) (x pos) && PrimFloat.leb (x pos) (maxX b) &&
   PrimFloat.leb (minZ b) (z pos) && PrimFloat.leb (z pos) (maxZ b) &&
   PrimFloat.leb (minY b) (y pos) && PrimFloat.leb (y pos) (maxY b)).

(** [agent.velocity.{x,z} = Math.max(-maxSpeed, Math.min(maxSpeed, ...))] *)
Definition clamp (maxSpeed a : float) : float :=
  JS.Math_max (PrimFloat.opp maxSpeed) (JS.Math_min maxSpeed a).

Definition clampHorizontal (maxSpeed : float) (agent : Body) : Body :=
  let v := velocity agent in
  set_velocity agent (mkVec3 (clamp maxSpeed (x v)) (y v) (clamp maxSpeed (z v))).

(** [agent.velocity.x *= k; agent.velocity.z *= k]: the drag of the default branch. *)
Definition scaleHorizontal (k : float) (agent : Body) : Body :=
  let v := velocity agent in
  set_velocity agent (mkVec3 (x v * k) (y v) (z v * k)).

(** [typeof action === 'number' ? this.actions[action] : action.toLowerCase()];
    [None] is [undefined]. *)
Definition normalize (actions : list string) (action : JS.value) : option string :=
  match action with
  | JS.Num n => JS.array_get actions n
  | JS.Str s => Some (JS.toLowerCase s)
  end.

(** Does [switch (actionStr)] select [case label]? *)
Definition is_case (actionStr : option string) (label : string) : bool :=
  match actionStr with
  | Some s => String.eqb s label
  | None => false
  end.

(** The grounded test every [applyAction] starts with:
    [Math.abs(agent.velocity.y) < 0.1 && agent.position.y < this.agentHeight / 2 + 0.3]. *)
Definition grounded (agentHeight : float) (agent : Body) : bool :=
  PrimFloat.ltb (JS.Math_abs (y (velocity agent))) 0.1 &&
  PrimFloat.ltb (y (position agent)) (agentHeight / 2 + 0.3)%float.

Module BaseTask.
Local Open Scope float_scope.

Definition requiredSuccessSteps : nat := 5.

Definition getReward (done success : bool) : float :=
  if success then 1.0 else 0.0.

(** The generator keeps its state in [config.seed], the session's merged
    configuration object. *)
Definition seededRandom (config : Config.t) : float * Config.t :=
  let s := JS.of_Z (JS.bitand (Config.seed config * 1103515245 + 12345) 0x7fffffff) in
  (s / 0x7fffffff, Config.set_seed config s).

Definition randomInRange (config : Config.t) (min max : float) : float * Config.t :=
  let '(r, config) := seededRandom config in
  (min + r * (max - min), config).

End BaseTask.

Module GapCrossingTask.
Section WithHost.
Context `{Host}.
Local Open Scope float_scope.

Definition platformWidth := 5.0.
Definition platformDepth := 5.0.
Definition platformHeight := 0.5.
Definition agentRadius := 0.4.
Definition agentHeight := 1.8.
Definition agentMass := 70.
Definition actions : list string :=
  ["forward"; "back"; "left"; "right"; "jump"; "idle"].

(** The mutable fields of a task object and the fields [setup] computes;
    [this.world] and [this.config] are the session's own world and
    configuration objects and are threaded through the methods. *)
Record t := mk {
  successSteps : nat;
  requiredSuccessSteps : nat;
  gapWidth : float;
  gapVariance : float;
  isGrounded : bool;
  canJump : bool;
  goalZone : Bounds;
  gapStart : float;
  gapEnd : float;
  actualGapWidth : float
}.

Record Observation := mkObservation {
  obs_agentPosition : Vec3;
  obs_agentVelocity : Vec3;
  obs_gapStart : float;
  obs_gapEnd : float;
  obs_gapWidth : float;
  obs_goalZone : Bounds;
  obs_gravity : float;
  obs_isGrounded : bool;
  obs_actions : list string
}.

(** The constructor: the field initialisers followed by [setup()]. *)
Definition new (world : PhysicsWorld.t) (config : Config.t)
  : PhysicsWorld.t * Config.t * t :=
  let gapWidth := nullish (Config.gapWidth config) 3.0 in
  let gapVariance := nullish (Config.gapVariance config) 0.5 in
  (* setup() *)
  let '(r, config) := BaseTask.randomInRange config (- gapVariance) gapVariance in
  let actualGap := gapWidth + r in
  let world := PhysicsWorld.createBox world "platformA"
    (mkVec3 0 ((- platformHeight) / 2) 0)
    (mkVec3 platformWidth platformHeight platformDepth) 0 in
  let platformBX := platformWidth / 2 + actualGap + platformWidth / 2 in
  let world := PhysicsWorld.createBox world "platformB"
    (mkVec3 platformBX ((- platformHeight) / 2) 0)
    (mkVec3 platformWidth platformHeight platformDepth) 0 in
  let goalZone := {|
    minX := platformBX - platformWidth / 2 + 0.5;
    maxX := platformBX + platformWidth / 2 - 0.5;
    minZ := (- platformDepth) / 2 + 0.5;
    maxZ := platformDepth / 2 - 0.5;
    minY := 0;
    maxY := 2.0 |} in
  let gapStart := platformWidth / 2 in
  let gapEnd := gapStart + actualGap in
  let agentStartX := (- platformWidth) / 4 in
  let world := PhysicsWorld.createCapsule world "agent"
    (mkVec3 agentStartX (agentHeight / 2 + 0.1) 0) agentRadius agentHeight agentMass in
  (world, config,
   mk 0 BaseTask.requiredSuccessSteps gapWidth gapVariance false true
      goalZone gapStart gapEnd actualGap).

Definition getObservation (world : PhysicsWorld.t) (config : Config.t) (this : t)
  : JS.completion Observation :=
  match PhysicsWorld.getBodyState world "agent" with
  | None => JS.Throw (JS.TypeError "Cannot read properties of null (reading 'position')")
  | Some (position, velocity) =>
      JS.Normal (mkObservation position velocity (gapStart this) (gapEnd this)
                   (actualGapWidth this) (goalZone this) (Config.gravity config)
                   (isGrounded this) actions)
  end.

Inductive case := forward | back | left | right | jump | default.

Definition switch (actionStr : option string) : case :=
  if is_case actionStr "forward" then forward
  else if is_case actionStr "back" then back
  else if is_case actionStr "left" then left
  else if is_case actionStr "right" then right
  else if is_case actionStr "jump" then jump
  else default.

Definition desiredHeight := 2.0.
Definition maxSpeed := 5.0.

(** The guard of [case 'jump']: [this.isGrounded && this.canJump], with
    the grounded flag this call has just computed. *)
Definition jumpAccepted (this : t) (agent : Body) : bool :=
  grounded agentHeight agent && canJump this.

Definition applyAction (world : PhysicsWorld.t) (config : Config.t) (this : t)
    (action : JS.value) : PhysicsWorld.t * t :=
  match PhysicsWorld.getBody world "agent" with
  | None => (world, this)
  | Some agent =>
      let grounded := grounded agentHeight agent in
      let actionStr := normalize actions action in
      let v := velocity agent in
      let '(agent, canJump) :=
        match switch actionStr with
        | forward => (set_velocity agent (set_x v 4.0), canJump this)
        | back => (set_velocity agent (set_x v (-4.0)), canJump this)
        | left => (set_velocity agent (set_z v (-3.0)), canJump this)
        | right => (set_velocity agent (set_z v 3.0), canJump this)
        | jump =>
            if jumpAccepted this agent then
              let jumpVelocity := JS.Math_sqrt (2 * Config.gravity config * desiredHeight) in
              (set_velocity agent (set_y v jumpVelocity), false)
            else (agent, canJump this)
        | default =>
            (scaleHorizontal 0.9 agent, canJump this)
        end in
      let canJump := if grounded then true else canJump in
      let agent := clampHorizontal maxSpeed agent in
      (PhysicsWorld.putBody world "agent" agent,
       mk (successSteps this) (requiredSuccessSteps this) (gapWidth this) (gapVariance this)
          grounded canJump (goalZone this) (gapStart this) (gapEnd this)
          (actualGapWidth this))
  end.

Definition set_successSteps (this : t) (n : nat) : t :=
  mk n (requiredSuccessSteps this) (gapWidth this) (gapVariance this)
     (isGrounded this) (canJump this) (goalZone this) (gapStart this) (gapEnd this)
     (actualGapWidth this).

Definition inGoal (world : PhysicsWorld.t) (this : t) : bool :=
  match PhysicsWorld.getBody world "agent" with
  | None => false
  | Some agent => inside (goalZone this) (position agent)
  end.

Definition checkTermination (world : PhysicsWorld.t) (this : t)
  : TerminationResult.t * t :=
  match PhysicsWorld.getBody world "agent" with
  | None => (TerminationResult.mk true false "agent_missing", this)
  | Some agent =>
      let pos := position agent in
      if PrimFloat.ltb (y pos) (-5) then (TerminationResult.mk true false "fell", this)
      else if inside (goalZone this) pos then
        let this := set_successSteps this (S (successSteps this)) in
        if (requiredSuccessSteps this <=? successSteps this)%nat
        then (TerminationResult.mk true true "reached_goal", this)
        else (TerminationResult.mk false false "ongoing", this)
      else (TerminationResult.mk false false "ongoing", set_successSteps this 0)
  end.

Definition getReward (done success : bool) : float :=
  if success then 1.0 else 0.0.

End WithHost.
End GapCrossingTask.

Module GapCrossingTaskV2.
Section WithHost.
Context `{Host}.
Local Open Scope float_scope.

Definition platformWidth := 4.0.
Definition platformDepth := 3.0.
Definition platformHeight := 0.5.
Definition agentRadius := 0.4.
Definition agentHeight := 1.8.
Definition agentMass := 80.
Definition moveSpeed := 3.0.
Definition maxSpeed := 4.0.
Definition jumpHeight := 1.2.
Definition jumpCooldownMs : Z := 500.
Definition airControl := 0.3.
Definition runUpBonus := 1.3.
Definition actions : list string :=
  ["forward"; "back"; "left"; "right"; "jump"; "idle"].

Record t := mk {
  successSteps : nat;
  requiredSuccessSteps : nat;
  gapWidth : float;
  gapVariance : float;
  goalPlatformWidth : float;
  landingZoneWidth : option float;
  landingZoneStart : option float;
  landingZoneEnd : option float;
  isGrounded : bool;
  canJump : bool;
  (** [Date.now()] at the last accepted jump, in milliseconds *)
  lastJumpTime : Z;
  goalZone : Bounds;
  gapStart : float;
  gapEnd : float;
  actualGapWidth : float
}.

Record Observation := mkObservation {
  obs_agentPosition : Vec3;
  obs_agentVelocity : Vec3;
  obs_gapStart : float;
  obs_gapEnd : float;
  obs_gapWidth : float;
  obs_goalZone : Bounds;
  obs_gravity : float;
  obs_isGrounded : bool;
  obs_jumpHeight : float;
  obs_moveSpeed : float;
  obs_airControl : float;
  obs_runUpBonus : float;
  obs_actions : list string
}.

Definition new (world : PhysicsWorld.t) (config : Config.t)
  : PhysicsWorld.t * Config.t * t :=
  let gapWidth := nullish (Config.gapWidth config) 4.6 in
  let gapVariance := nullish (Config.gapVariance config) 0.1 in
  let goalPlatformWidth := nullish (Config.goalPlatformWidth config) platformWidth in
  let landingZoneWidth := Config.landingZoneWidth config in
  let landingZoneStart := Config.landingZoneStart config in
  let landingZoneEnd := Config.landingZoneEnd config in
  (* setup() *)
  let '(r, config) := BaseTask.randomInRange config (- gapVariance) gapVariance in
  let actualGap := gapWidth + r in
  let world := PhysicsWorld.createBox world "platformA"
    (mkVec3 0 ((- platformHeight) / 2) 0)
    (mkVec3 platformWidth platformHeight platformDepth) 0 in
  let platformBX := platformWidth / 2 + actualGap + goalPlatformWidth / 2 in
  let world := PhysicsWorld.createBox world "platformB"
    (mkVec3 platformBX ((- platformHeight) / 2) 0)
    (mkVec3 goalPlatformWidth platformHeight platformDepth) 0 in
  let '(goalMinX, goalMaxX) :=
    match landingZoneStart, landingZoneEnd with
    | Some zoneStart, Some zoneEnd => (zoneStart, zoneEnd)
    | _, _ =>
        match landingZoneWidth with
        | Some width =>
            let halfWidth := width / 2 in
            (platformBX - halfWidth, platformBX + halfWidth)
        | None =>
            (platformBX - platformWidth / 2 + 0.8, platformBX + platformWidth / 2 - 0.8)
        end
    end in
  let goalZone := {|
    minX := goalMinX;
    maxX := goalMaxX;
    minZ := (- platformDepth) / 2 + 0.8;
    maxZ := platformDepth / 2 - 0.8;
    minY := 0;
    maxY := 2.0 |} in
  let gapStart := platformWidth / 2 in
  let gapEnd := gapStart + actualGap in
  let agentStartX := (- platformWidth) / 3 in
  let world := PhysicsWorld.createCapsule world "agent"
    (mkVec3 agentStartX (agentHeight / 2 + 0.1) 0) agentRadius agentHeight agentMass in
  (* agentBody.linearDamping = 0 *)
  let world :=
    match PhysicsWorld.getBody world "agent" with
    | Some agentBody => PhysicsWorld.putBody world "agent" (set_linearDamping agentBody 0)
    | None => world
    end in
  (world, config,
   mk 0 BaseTask.requiredSuccessSteps gapWidth gapVariance goalPlatformWidth
      landingZoneWidth landingZoneStart landingZoneEnd false true 0%Z
      goalZone gapStart gapEnd actualGap).

Definition getObservation (world : PhysicsWorld.t) (config : Config.t) (this : t)
  : JS.completion Observation :=
  match PhysicsWorld.getBodyState world "agent" with
  | None => JS.Throw (JS.TypeError "Cannot read properties of null (reading 'position')")
  | Some (position, velocity) =>
      JS.Normal (mkObservation position velocity (gapStart this) (gapEnd this)
                   (actualGapWidth this) (goalZone this) (Config.gravity config)
                   (isGrounded this) jumpHeight moveSpeed airControl runUpBonus actions)
  end.

Inductive case := forward | back | left | right | jump | default.

Definition switch (actionStr : option string) : case :=
  if is_case actionStr "forward" then forward
  else if is_case actionStr "back" then back
  else if is_case actionStr "left" then left
  else if is_case actionStr "right" then right
  else if is_case actionStr "jump" then jump
  else default.

(** The guard of [case 'jump']:
    [this.isGrounded && this.canJump && (now - this.lastJumpTime) > this.jumpCooldownMs],
    where [canJump] has just been re-enabled if the agent landed. *)
Definition jumpAccepted (this : t) (agent : Body) (now : Z) : bool :=
  let grounded := grounded agentHeight agent in
  let canJump := if negb (isGrounded this) && grounded then true else canJump this in
  grounded && canJump && (jumpCooldownMs <? now - lastJumpTime this)%Z.

(** [now] is the reading of [Date.now()] this call makes. *)
Definition applyAction (world : PhysicsWorld.t) (config : Config.t) (this : t)
    (action : JS.value) (now : Z) : PhysicsWorld.t * t :=
  match PhysicsWorld.getBody world "agent" with
  | None => (world, this)
  | Some agent =>
      let wasGrounded := isGrounded this in
      let grounded := grounded agentHeight agent in
      let canJump := if negb wasGrounded && grounded then true else canJump this in
      let actionStr := normalize actions action in
      let v := velocity agent in
      let '(agent, canJump, lastJumpTime) :=
        match switch actionStr with
        | forward =>
            if grounded then (set_velocity agent (set_x v moveSpeed), canJump, lastJumpTime this)
            else
              let vx := x v + moveSpeed * airControl * 0.1 in
              (set_velocity agent (set_x v (JS.Math_min vx maxSpeed)), canJump, lastJumpTime this)
        | back =>
            if grounded then (set_velocity agent (set_x v (- moveSpeed)), canJump, lastJumpTime this)
            else
              let vx := x v - moveSpeed * airControl * 0.1 in
              (set_velocity agent (set_x v (JS.Math_max vx (- maxSpeed))), canJump, lastJumpTime this)
        | left =>
            if grounded then (set_velocity agent (set_z v ((- moveSpeed) * 0.8)), canJump, lastJumpTime this)
            else (set_velocity agent (set_z v (z v - moveSpeed * airControl * 0.05)), canJump, lastJumpTime this)
        | right =>
            if grounded then (set_velocity agent (set_z v (moveSpeed * 0.8)), canJump, lastJumpTime this)
            else (set_velocity agent (set_z v (z v + moveSpeed * airControl * 0.05)), canJump, lastJumpTime this)
        | jump =>
            if jumpAccepted this agent now then
              let jumpVelocity := JS.Math_sqrt (2 * Config.gravity config * jumpHeight) in
              let forwardSpeed := x v in
              let jumpVelocity :=
                if PrimFloat.ltb (moveSpeed * 0.5) forwardSpeed
                then jumpVelocity * runUpBonus else jumpVelocity in
              (set_velocity agent (set_y v jumpVelocity), false, now)
            else (agent, canJump, lastJumpTime this)
        | default =>
            if grounded
            then (scaleHorizontal 0.85 agent, canJump, lastJumpTime this)
            else (scaleHorizontal 0.98 agent, canJump, lastJumpTime this)
        end in
      let agent := clampHorizontal maxSpeed agent in
      (PhysicsWorld.putBody world "agent" agent,
       mk (successSteps this) (requiredSuccessSteps this) (gapWidth this) (gapVariance this)
          (goalPlatformWidth this) (landingZoneWidth this) (landingZoneStart this)
          (landingZoneEnd this) grounded canJump lastJumpTime
          (goalZone this) (gapStart this) (gapEnd this) (actualGapWidth this))
  end.

Definition set_successSteps (this : t) (n : nat) : t :=
  mk n (requiredSuccessSteps this) (gapWidth this) (gapVariance this)
     (goalPlatformWidth this) (landingZoneWidth this) (landingZoneStart this)
     (landingZoneEnd this) (isGrounded this) (canJump this) (lastJumpTime this)
     (goalZone this) (gapStart this) (gapEnd this) (actualGapWidth this).

Definition inGoal (world : PhysicsWorld.t) (this : t) : bool :=
  match PhysicsWorld.getBody world "agent" with
  | None => false
  | Some agent => inside (goalZone this) (position agent)
  end.

Definition checkTermination (world : PhysicsWorld.t) (this : t)
  : TerminationResult.t * t :=
  match PhysicsWorld.getBody world "agent" with
  | None => (TerminationResult.mk true false "agent_missing", this)
  | Some agent =>
      let pos := position agent in
      if PrimFloat.ltb (y pos) (-5) then (TerminationResult.mk true false "fell", this)
      else if PrimFloat.ltb (platformDepth / 2 + 0.5) (JS.Math_abs (z pos))
      then (TerminationResult.mk true false "fell_side", this)
      else if inside (goalZone this) pos then
        let this := set_successSteps this (S (successSteps this)) in
        if (requiredSuccessSteps this <=? successSteps this)%nat
        then (TerminationResult.mk true true "reached_goal", this)
        else (TerminationResult.mk false false "ongoing", this)
      else (TerminationResult.mk false false "ongoing", set_successSteps this 0)
  end.

Definition getReward (done success : bool) : float :=
  if success then 1.0 else 0.0.

End WithHost.
End GapCrossingTaskV2.

(** The keys of [throwStrengths], in the order the object literal lists them. *)
Inductive strengthKey := weak | medium | strong.

Definition strengthName (k : strengthKey) : string :=
  match k with weak => "weak" | medium => "medium" | strong => "strong" end.

Module ThrowBlockTask.
Section WithHost.
Context `{Host}.
Local Open Scope float_scope.

Definition platformSize := 8.0.
Definition platformHeight := 0.5.
Definition blockSize := 0.4.
Definition blockMass := 2.0.
Definition basketWidth := 1.2.
Definition basketDepth := 1.2.
Definition basketWallHeight := 0.8.
Definition basketWallThickness := 0.1.
Definition agentRadius := 0.4.
Definition agentHeight := 1.8.
Definition agentMass := 70.
Definition throwStrengths (k : strengthKey) : float :=
  match k with weak => 5 | medium => 10 | strong => 15 end.
Definition actions : list string :=
  ["forward"; "back"; "left"; "right"; "pick"; "drop";
   "throw_weak"; "throw_medium"; "throw_strong"; "idle"].

Record t := mk {
  successSteps : nat;
  requiredSuccessSteps : nat;
  basketDistance : float;
  basketDistanceVariance : float;
  basketHeight : float;
  holdingBlock : bool;
  isGrounded : bool;
  basketBounds : Bounds;
  actualBasketDistance : float
}.

Record Observation := mkObservation {
  obs_agentPosition : Vec3;
  obs_agentVelocity : Vec3;
  obs_blockPosition : Vec3;
  obs_blockVelocity : Vec3;
  obs_holdingBlock : bool;
  obs_basketPosition : Vec3;
  obs_basketBounds : Bounds;
  obs_gravity : float;
  obs_isGrounded : bool;
  obs_actions : list string
}.

(** The scene both revisions build: platform, agent, block and the five
    panels of the basket; the result is the world and the basket's interior. *)
Definition buildScene (world : PhysicsWorld.t)
    (platformSize platformHeight agentX agentHeight agentRadius agentMass
     blockX blockSize blockMass basketX basketY
     basketWidth basketDepth basketWallHeight basketWallThickness : float)
  : PhysicsWorld.t * Bounds :=
  let world := PhysicsWorld.createBox world "platform"
    (mkVec3 0 ((- platformHeight) / 2) 0)
    (mkVec3 platformSize platformHeight platformSize) 0 in
  let world := PhysicsWorld.createCapsule world "agent"
    (mkVec3 agentX (agentHeight / 2 + 0.1) 0) agentRadius agentHeight agentMass in
  let world := PhysicsWorld.createBox world "block"
    (mkVec3 blockX (blockSize / 2 + 0.1) 0)
    (mkVec3 blockSize blockSize blockSize) blockMass in
  let world := PhysicsWorld.createBox world "basketFloor"
    (mkVec3 basketX basketY 0)
    (mkVec3 basketWidth basketWallThickness basketDepth) 0 in
  let wallOffset := (basketWidth - basketWallThickness) / 2 in
  let wallHeight := basketWallHeight in
  let world := PhysicsWorld.createBox world "basketWallLeft"
    (mkVec3 (basketX - wallOffset) (basketY + wallHeight / 2) 0)
    (mkVec3 basketWallThickness wallHeight basketDepth) 0 in
  let world := PhysicsWorld.createBox world "basketWallRight"
    (mkVec3 (basketX + wallOffset) (basketY + wallHeight / 2) 0)
    (mkVec3 basketWallThickness wallHeight basketDepth) 0 in
  let world := PhysicsWorld.createBox world "basketWallFront"
    (mkVec3 basketX (basketY + wallHeight / 2) (- wallOffset))
    (mkVec3 basketWidth wallHeight basketWallThickness) 0 in
  let world := PhysicsWorld.createBox world "basketWallBack"
    (mkVec3 basketX (basketY + wallHeight / 2) wallOffset)
    (mkVec3 basketWidth wallHeight basketWallThickness) 0 in
  (world,
   {| minX := basketX - basketWidth / 2 + basketWallThickness;
      maxX := basketX + basketWidth / 2 - basketWallThickness;
      minY := basketY;
      maxY := basketY + basketWallHeight;
      minZ := (- basketDepth) / 2 + basketWallThickness;
      maxZ := basketDepth / 2 - basketWallThickness |}).

Definition new (world : PhysicsWorld.t) (config : Config.t)
  : PhysicsWorld.t * Config.t * t :=
  let basketDistance := nullish (Config.basketDistance config) 6.0 in
  let basketDistanceVariance := nullish (Config.basketDistanceVariance config) 1.0 in
  let basketHeight := nullish (Config.basketHeight config) 1.5 in
  (* setup() *)
  let '(r, config) :=
    BaseTask.randomInRange config (- basketDistanceVariance) basketDistanceVariance in
  let actualDistance := basketDistance + r in
  let '(world, basketBounds) :=
    buildScene world platformSize platformHeight (-2) agentHeight agentRadius agentMass
      (-1.5) blockSize blockMass actualDistance basketHeight
      basketWidth basketDepth basketWallHeight basketWallThickness in
  (world, config,
   mk 0 BaseTask.requiredSuccessSteps basketDistance basketDistanceVariance basketHeight
      false false basketBounds actualDistance).

Definition getObservation (world : PhysicsWorld.t) (config : Config.t) (this : t)
  : JS.completion Observation :=
  match PhysicsWorld.getBodyState world "agent", PhysicsWorld.getBodyState world "block" with
  | None, _ => JS.Throw (JS.TypeError "Cannot read properties of null (reading 'position')")
  | _, None => JS.Throw (JS.TypeError "Cannot read properties of null (reading 'position')")
  | Some (agentPosition, agentVelocity), Some (blockPosition, blockVelocity) =>
      JS.Normal (mkObservation agentPosition agentVelocity blockPosition blockVelocity
                   (holdingBlock this)
                   (mkVec3 (actualBasketDistance this) (basketHeight this) 0)
                   (basketBounds this) (Config.gravity config) (isGrounded this) actions)
  end.

Inductive case :=
| forward | back | left | right | pick | drop | throw (k : strengthKey) | default.

Definition switch (actionStr : option string) : case :=
  if is_case actionStr "forward" then forward
  else if is_case actionStr "back" then back
  else if is_case actionStr "left" then left
  else if is_case actionStr "right" then right
  else if is_case actionStr "pick" then pick
  else if is_case actionStr "drop" then drop
  else if is_case actionStr "throw_weak" then throw weak
  else if is_case actionStr "throw_medium" then throw medium
  else if is_case actionStr "throw_strong" then throw strong
  else default.

Definition pickupRange := 1.5.
Definition maxSpeed := 4.0.

(** The planar distance [pick] measures between agent and block. *)
Definition pickDistance (agent block : Body) : float :=
  let dx := x (position agent) - x (position block) in
  let dz := z (position agent) - z (position block) in
  JS.Math_sqrt (dx * dx + dz * dz).

Definition set_flags (this : t) (holding grounded : bool) : t :=
  mk (successSteps this) (requiredSuccessSteps this) (basketDistance this)
     (basketDistanceVariance this) (basketHeight this) holding grounded
     (basketBounds this) (actualBasketDistance this).

Definition applyAction (world : PhysicsWorld.t) (config : Config.t) (this : t)
    (action : JS.value) : PhysicsWorld.t * t :=
  match PhysicsWorld.getBody world "agent", PhysicsWorld.getBody world "block" with
  | Some agent, Some block =>
      let grounded := grounded agentHeight agent in
      let actionStr := normalize actions action in
      let v := velocity agent in
      let p := position agent in
      let '(agent, block, holding) :=
        match switch actionStr with
        | forward => (set_velocity agent (set_x v 3.0), block, holdingBlock this)
        | back => (set_velocity agent (set_x v (-3.0)), block, holdingBlock this)
        | left => (set_velocity agent (set_z v (-3.0)), block, holdingBlock this)
        | right => (set_velocity agent (set_z v 3.0), block, holdingBlock this)
        | pick =>
            if negb (holdingBlock this) then
              if PrimFloat.ltb (pickDistance agent block) pickupRange
              then (agent, block, true)
              else (agent, block, holdingBlock this)
            else (agent, block, holdingBlock this)
        | drop =>
            if holdingBlock this then
              (agent,
               set_velocity (set_position block (mkVec3 (x p + 0.5) (y p - 0.5) (z p)))
                 (mkVec3 0 0 0),
               false)
            else (agent, block, holdingBlock this)
        | throw k =>
            if holdingBlock this then
              let strength := throwStrengths k in
              let gravityFactor := Config.gravity config / 9.81 in
              (agent,
               set_velocity (set_position block (mkVec3 (x p + 0.8) (y p + 0.3) (z p)))
                 (mkVec3 strength (strength * 0.5 * JS.Math_sqrt gravityFactor) 0),
               false)
            else (agent, block, holdingBlock this)
        | default =>
            (scaleHorizontal 0.9 agent, block, holdingBlock this)
        end in
      let block :=
        if holding
        then set_velocity (set_position block (mkVec3 (x p + 0.5) (y p + 0.2) (z p)))
               (mkVec3 0 0 0)
        else block in
      let agent := clampHorizontal maxSpeed agent in
      (PhysicsWorld.putBody (PhysicsWorld.putBody world "block" block) "agent" agent,
       set_flags this holding grounded)
  | _, _ => (world, this)
  end.

Definition set_successSteps (this : t) (n : nat) : t :=
  mk n (requiredSuccessSteps this) (basketDistance this)
     (basketDistanceVariance this) (basketHeight this) (holdingBlock this)
     (isGrounded this) (basketBounds this) (actualBasketDistance this).

Definition speed (vel : Vec3) : float :=
  JS.Math_sqrt (x vel * x vel + y vel * y vel + z vel * z vel).

(** The success predicate: the block inside the basket's interior and at rest. *)
Definition inBasketAtRest (bounds : Bounds) (block : Body) : bool :=
  inside bounds (position block) && PrimFloat.ltb (speed (velocity block)) 0.5.

Definition checkTermination (world : PhysicsWorld.t) (this : t)
  : TerminationResult.t * t :=
  match PhysicsWorld.getBody world "block", PhysicsWorld.getBody world "agent" with
  | Some block, Some agent =>
      if PrimFloat.ltb (y (position block)) (-2) then (TerminationResult.mk true false "block_fell", this)
      else if PrimFloat.ltb (y (position agent)) (-2) then (TerminationResult.mk true false "agent_fell", this)
      else if inBasketAtRest (basketBounds this) block then
        let this := set_successSteps this (S (successSteps this)) in
        if (requiredSuccessSteps this <=? successSteps this)%nat
        then (TerminationResult.mk true true "block_in_basket", this)
        else (TerminationResult.mk false false "ongoing", this)
      else (TerminationResult.mk false false "ongoing", set_successSteps this 0)
  | _, _ => (TerminationResult.mk true false "missing_objects", this)
  end.

Definition getReward (done success : bool) : float :=
  if success then 1.0 else 0.0.

End WithHost.
End ThrowBlockTask.

Module ThrowBlockTaskV2.
Section WithHost.
Context `{Host}.
Local Open Scope float_scope.

Definition platformSize := 6.0.
Definition platformHeight := 0.5.
Definition blockSize := 0.35.
Definition blockMass := 0.8.
Definition basketWidth := 1.5.
Definition basketDepth := 1.5.
Definition basketWallHeight := 0.6.
Definition basketWallThickness := 0.1.
Definition agentRadius := 0.4.
Definition agentHeight := 1.8.
Definition agentMass := 70.
Definition throwStrengths (k : strengthKey) : float :=
  match k with weak => 4.0 | medium => 6.0 | strong => 8.5 end.
Definition throwAngle := 45 * JS.Math_PI / 180.
Definition pickupRange := 1.8.
Definition actions : list string :=
  ["forward"; "back"; "left"; "right"; "pick"; "drop";
   "throw_weak"; "throw_medium"; "throw_strong"; "idle"].

Record t := mk {
  successSteps : nat;
  requiredSuccessSteps : nat;
  basketDistance : float;
  basketDistanceVariance : float;
  basketHeight : float;
  holdingBlock : bool;
  isGrounded : bool;
  basketBounds : Bounds;
  actualBasketDistance : float
}.

Record Observation := mkObservation {
  obs_agentPosition : Vec3;
  obs_agentVelocity : Vec3;
  obs_blockPosition : Vec3;
  obs_blockVelocity : Vec3;
  obs_holdingBlock : bool;
  obs_basketPosition : Vec3;
  obs_basketBounds : Bounds;
  obs_distanceToBasket : float;
  obs_throwStrengths : list (string * float);
  obs_optimalThrowStrength : string;
  obs_gravity : float;
  obs_isGrounded : bool;
  obs_actions : list string
}.

Definition new (world : PhysicsWorld.t) (config : Config.t)
  : PhysicsWorld.t * Config.t * t :=
  let basketDistance := nullish (Config.basketDistance config) 4.0 in
  let basketDistanceVariance := nullish (Config.basketDistanceVariance config) 0.5 in
  let basketHeight := nullish (Config.basketHeight config) 1.0 in
  (* setup() *)
  let '(r, config) :=
    BaseTask.randomInRange config (- basketDistanceVariance) basketDistanceVariance in
  let actualDistance := basketDistance + r in
  let '(world, basketBounds) :=
    ThrowBlockTask.buildScene world platformSize platformHeight (-1.5) agentHeight
      agentRadius agentMass (-0.8) blockSize blockMass actualDistance basketHeight
      basketWidth basketDepth basketWallHeight basketWallThickness in
  (world, config,
   mk 0 BaseTask.requiredSuccessSteps basketDistance basketDistanceVariance basketHeight
      false false basketBounds actualDistance).

(** [Object.entries(this.throwStrengths)] *)
Definition entries : list (strengthKey * float) :=
  map (fun k => (k, throwStrengths k)) [weak; medium; strong].

Definition _getOptimalThrowStrength (config : Config.t) (distance : float) : string :=
  let g := Config.gravity config in
  let theta := throwAngle in
  let step (acc : string * float) (entry : strengthKey * float) :=
    let '(bestStrength, minError) := acc in
    let '(name, v) := entry in
    let range := (v * v * Math_sin (2 * theta)) / g in
    let error := JS.Math_abs (range - distance) in
    if PrimFloat.ltb error minError then (strengthName name, error)
    else (bestStrength, minError) in
  fst (fold_left step entries ("medium", PrimFloat.infinity)).

Definition getObservation (world : PhysicsWorld.t) (config : Config.t) (this : t)
  : JS.completion Observation :=
  match PhysicsWorld.getBodyState world "agent", PhysicsWorld.getBodyState world "block" with
  | None, _ => JS.Throw (JS.TypeError "Cannot read properties of null (reading 'position')")
  | _, None => JS.Throw (JS.TypeError "Cannot read properties of null (reading 'position')")
  | Some (agentPosition, agentVelocity), Some (blockPosition, blockVelocity) =>
      let distToBasket := actualBasketDistance this - x agentPosition in
      JS.Normal (mkObservation agentPosition agentVelocity blockPosition blockVelocity
                   (holdingBlock this)
                   (mkVec3 (actualBasketDistance this) (basketHeight this) 0)
                   (basketBounds this) distToBasket
                   (map (fun e => (strengthName (fst e), snd e)) entries)
                   (_getOptimalThrowStrength config distToBasket)
                   (Config.gravity config) (isGrounded this) actions)
  end.

Definition maxSpeed := 4.0.

Definition pickDistance (agent block : Body) : float :=
  let dx := x (position agent) - x (position block) in
  let dz := z (position agent) - z (position block) in
  JS.Math_sqrt (dx * dx + dz * dz).

Definition set_flags (this : t) (holding grounded : bool) : t :=
  mk (successSteps this) (requiredSuccessSteps this) (basketDistance this)
     (basketDistanceVariance this) (basketHeight this) holding grounded
     (basketBounds this) (actualBasketDistance this).

(** The velocity a throw of magnitude [strength] gives a block released at
    [release]: aimed in the plane at the basket centre, at [throwAngle]. *)
Definition throwVelocity (this : t) (strength : float) (release : Vec3) : Vec3 :=
  let toBasketX := actualBasketDistance this - x release in
  let toBasketZ := 0 - z release in
  let horizontalDist := JS.Math_sqrt (toBasketX * toBasketX + toBasketZ * toBasketZ) in
  let dirX := toBasketX / horizontalDist in
  let dirZ := toBasketZ / horizontalDist in
  let vHorizontal := strength * Math_cos throwAngle in
  let vVertical := strength * Math_sin throwAngle in
  mkVec3 (vHorizontal * dirX) vVertical (vHorizontal * dirZ).

(** [durationScale] is the field of the request body [applyAction] reads
    from [params]; [None] when the request does not carry it. *)
Definition applyAction (world : PhysicsWorld.t) (config : Config.t) (this : t)
    (action : JS.value) (durationScale : option float) : PhysicsWorld.t * t :=
  match PhysicsWorld.getBody world "agent", PhysicsWorld.getBody world "block" with
  | Some agent, Some block =>
      let grounded := grounded agentHeight agent in
      let actionStr := normalize actions action in
      let scale :=
        match durationScale with
        | Some s => if JS.truthy s then s else 1.0
        | None => 1.0
        end in
      let v := velocity agent in
      let p := position agent in
      let '(agent, block, holding) :=
        match ThrowBlockTask.switch actionStr with
        | ThrowBlockTask.forward =>
            (set_velocity agent (set_x v (3.0 * scale)), block, holdingBlock this)
        | ThrowBlockTask.back =>
            (set_velocity agent (set_x v (-3.0 * scale)), block, holdingBlock this)
        | ThrowBlockTask.left =>
            (set_velocity agent (set_z v (-3.0 * scale)), block, holdingBlock this)
        | ThrowBlockTask.right =>
            (set_velocity agent (set_z v (3.0 * scale)), block, holdingBlock this)
        | ThrowBlockTask.pick =>
            if negb (holdingBlock this) then
              if PrimFloat.ltb (pickDistance agent block) pickupRange
              then (agent, block, true)
              else (agent, block, holdingBlock this)
            else (agent, block, holdingBlock this)
        | ThrowBlockTask.drop =>
            if holdingBlock this then
              (agent,
               set_velocity (set_position block (mkVec3 (x p + 0.5) (y p - 0.5) (z p)))
                 (mkVec3 0 0 0),
               false)
            else (agent, block, holdingBlock this)
        | ThrowBlockTask.throw k =>
            if holdingBlock this then
              let strength := throwStrengths k in
              let release := mkVec3 (x p + 0.6) (y p + 0.4) (z p) in
              (agent,
               set_velocity (set_position block release) (throwVelocity this strength release),
               false)
            else (agent, block, holdingBlock this)
        | ThrowBlockTask.default =>
            (scaleHorizontal 0.9 agent, block, holdingBlock this)
        end in
      let block :=
        if holding
        then set_velocity (set_position block (mkVec3 (x p + 0.5) (y p + 0.2) (z p)))
               (mkVec3 0 0 0)
        else block in
      let agent := clampHorizontal maxSpeed agent in
      (PhysicsWorld.putBody (PhysicsWorld.putBody world "block" block) "agent" agent,
       set_flags this holding grounded)
  | _, _ => (world, this)
  end.

Definition set_successSteps (this : t) (n : nat) : t :=
  mk n (requiredSuccessSteps this) (basketDistance this)
     (basketDistanceVariance this) (basketHeight this) (holdingBlock this)
     (isGrounded this) (basketBounds this) (actualBasketDistance this).

Definition checkTermination (world : PhysicsWorld.t) (this : t)
  : TerminationResult.t * t :=
  match PhysicsWorld.getBody world "block", PhysicsWorld.getBody world "agent" with
  | Some block, Some agent =>
      if PrimFloat.ltb (y (position block)) (-2) then (TerminationResult.mk true false "block_fell", this)
      else if PrimFloat.ltb (y (position agent)) (-2) then (TerminationResult.mk true false "agent_fell", this)
      else if ThrowBlockTask.inBasketAtRest (basketBounds this) block then
        let this := set_successSteps this (S (successSteps this)) in
        if (requiredSuccessSteps this <=? successSteps this)%nat
        then (TerminationResult.mk true true "block_in_basket", this)
        else (TerminationResult.mk false false "ongoing", this)
      else (TerminationResult.mk false false "ongoing", set_successSteps this 0)
  | _, _ => (TerminationResult.mk true false "missing_objects", this)
  end.

Definition getReward (done success : bool) : float :=
  if success then 1.0 else 0.0.

End WithHost.
End ThrowBlockTaskV2.

(** ** The environment server *)

Module Server.
Section WithHost.
Context `{Host}.
Local Open Scope float_scope.

Inductive TaskClass := Gap | Throw | GapV2 | ThrowV2.

(** What [TASKS[taskName]] evaluates to. [TASKS] is an object literal, so a
    name that is not one of its own four keys is looked up on
    [Object.prototype]: [constructor] is the [Object] function, the other
    members are built-in methods (and, for [__proto__], the prototype object
    itself), none of which [new] accepts. [None] is [undefined]. *)
Inductive Property :=
| Class (c : TaskClass)
| ObjectConstructor
| NotAConstructor.

Definition Object_prototype_members : list string :=
  ["__defineGetter__"; "__defineSetter__"; "hasOwnProperty"; "__lookupGetter__";
   "__lookupSetter__"; "isPrototypeOf"; "propertyIsEnumerable"; "toString";
   "valueOf"; "__proto__"; "toLocaleString"].

Definition TASKS (taskName : string) : option Property :=
  if String.eqb taskName "gap" then Some (Class Gap)
  else if String.eqb taskName "throw" then Some (Class Throw)
  else if String.eqb taskName "gap_v2" then Some (Class GapV2)
  else if String.eqb taskName "throw_v2" then Some (Class ThrowV2)
  else if String.eqb taskName "constructor" then Some ObjectConstructor
  else if existsb (String.eqb taskName) Object_prototype_members then Some NotAConstructor
  else None.

(** The configuration object of a reset request: every key may be absent. *)
Record Overrides := mkOverrides {
  o_task : option string;
  o_taskVersion : option string;
  o_gravity : option float;
  o_seed : option float;
  o_maxSteps : option Z;
  o_physicsTicksPerStep : option Z;
  o_timeStep : option float;
  o_gapWidth : option float;
  o_gapVariance : option float;
  o_goalPlatformWidth : option float;
  o_landingZoneWidth : option float;
  o_landingZoneStart : option float;
  o_landingZoneEnd : option float;
  o_basketDistance : option float;
  o_basketDistanceVariance : option float;
  o_basketHeight : option float
}.

Definition DEFAULT_CONFIG : Config.t :=
  Config.mk "gap" None 9.81 42 500%Z 10%Z (1 / 60)
    None None None None None None None None None.

(** [{ ...DEFAULT_CONFIG, ...config }]: a fresh object for each call, in
    which a key of [config] overrides the default. *)
Definition merge (config : Overrides) : Config.t :=
  Config.mk
    (nullish (o_task config) (Config.task DEFAULT_CONFIG))
    (o_taskVersion config)
    (nullish (o_gravity config) (Config.gravity DEFAULT_CONFIG))
    (nullish (o_seed config) (Config.seed DEFAULT_CONFIG))
    (nullish (o_maxSteps config) (Config.maxSteps DEFAULT_CONFIG))
    (nullish (o_physicsTicksPerStep config) (Config.physicsTicksPerStep DEFAULT_CONFIG))
    (nullish (o_timeStep config) (Config.timeStep DEFAULT_CONFIG))
    (o_gapWidth config) (o_gapVariance config) (o_goalPlatformWidth config)
    (o_landingZoneWidth config) (o_landingZoneStart config) (o_landingZoneEnd config)
    (o_basketDistance config) (o_basketDistanceVariance config) (o_basketHeight config).

(** The object [env.task] refers to: an instance of one of the task
    classes, or, after [new Object(world, mergedConfig)], the world object
    itself, which has none of the task methods. *)
Inductive Task :=
| GapTask (this : GapCrossingTask.t)
| GapTaskV2 (this : GapCrossingTaskV2.t)
| ThrowTask (this : ThrowBlockTask.t)
| ThrowTaskV2 (this : ThrowBlockTaskV2.t)
| WorldObject.

Inductive Observation :=
| GapObservation (o : GapCrossingTask.Observation)
| GapV2Observation (o : GapCrossingTaskV2.Observation)
| ThrowObservation (o : ThrowBlockTask.Observation)
| ThrowV2Observation (o : ThrowBlockTaskV2.Observation).

Record Env := mkEnv {
  world : PhysicsWorld.t;
  task : Task;
  config : Config.t;
  stepCount : Z;
  done : bool;
  totalReward : float
}.

Definition construct (c : TaskClass) (world : PhysicsWorld.t) (config : Config.t)
  : PhysicsWorld.t * Config.t * Task :=
  match c with
  | Gap => let '(w, c, t) := GapCrossingTask.new world config in (w, c, GapTask t)
  | GapV2 => let '(w, c, t) := GapCrossingTaskV2.new world config in (w, c, GapTaskV2 t)
  | Throw => let '(w, c, t) := ThrowBlockTask.new world config in (w, c, ThrowTask t)
  | ThrowV2 => let '(w, c, t) := ThrowBlockTaskV2.new world config in (w, c, ThrowTaskV2 t)
  end.

Definition not_a_function {A : Type} (callee : string) : JS.completion A :=
  JS.Throw (JS.TypeError (callee ++ " is not a function")).

Definition map_completion {A B : Type} (f : A -> B) (c : JS.completion A) : JS.completion B :=
  match c with
  | JS.Normal a => JS.Normal (f a)
  | JS.Throw e => JS.Throw e
  end.

Definition getObservation (callee : string) (world : PhysicsWorld.t) (config : Config.t)
    (task : Task) : JS.completion Observation :=
  match task with
  | GapTask this => map_completion GapObservation (GapCrossingTask.getObservation world config this)
  | GapTaskV2 this => map_completion GapV2Observation (GapCrossingTaskV2.getObservation world config this)
  | ThrowTask this => map_completion ThrowObservation (ThrowBlockTask.getObservation world config this)
  | ThrowTaskV2 this => map_completion ThrowV2Observation (ThrowBlockTaskV2.getObservation world config this)
  | WorldObject => not_a_function callee
  end.

(** [env.task.applyAction(action, params)]; only the second traversal
    revision reads the clock and only the second manipulation revision reads
    [params]. *)
Definition applyAction (world : PhysicsWorld.t) (config : Config.t) (task : Task)
    (action : JS.value) (durationScale : option float) (now : Z)
  : JS.completion (PhysicsWorld.t * Task) :=
  match task with
  | GapTask this =>
      let '(w, t) := GapCrossingTask.applyAction world config this action in
      JS.Normal (w, GapTask t)
  | GapTaskV2 this =>
      let '(w, t) := GapCrossingTaskV2.applyAction world config this action now in
      JS.Normal (w, GapTaskV2 t)
  | ThrowTask this =>
      let '(w, t) := ThrowBlockTask.applyAction world config this action in
      JS.Normal (w, ThrowTask t)
  | ThrowTaskV2 this =>
      let '(w, t) := ThrowBlockTaskV2.applyAction world config this action durationScale in
      JS.Normal (w, ThrowTaskV2 t)
  | WorldObject => not_a_function "env.task.applyAction"
  end.

Definition checkTermination (world : PhysicsWorld.t) (task : Task)
  : JS.completion (TerminationResult.t * Task) :=
  match task with
  | GapTask this =>
      let '(r, t) := GapCrossingTask.checkTermination world this in JS.Normal (r, GapTask t)
  | GapTaskV2 this =>
      let '(r, t) := GapCrossingTaskV2.checkTermination world this in JS.Normal (r, GapTaskV2 t)
  | ThrowTask this =>
      let '(r, t) := ThrowBlockTask.checkTermination world this in JS.Normal (r, ThrowTask t)
  | ThrowTaskV2 this =>
      let '(r, t) := ThrowBlockTaskV2.checkTermination world this in JS.Normal (r, ThrowTaskV2 t)
  | WorldObject => not_a_function "env.task.checkTermination"
  end.

Definition getReward (task : Task) (done success : bool) : float :=
  match task with
  | GapTask _ => GapCrossingTask.getReward done success
  | GapTaskV2 _ => GapCrossingTaskV2.getReward done success
  | ThrowTask _ => ThrowBlockTask.getReward done success
  | ThrowTaskV2 _ => ThrowBlockTaskV2.getReward done success
  | WorldObject => 0
  end.

Definition unknownTask (taskName : string) : JS.error :=
  JS.Error ("Unknown task: " ++ taskName ++ " (available: gap, throw, gap_v2, throw_v2)").

(** The task name with the optional [_v2] suffix:
    [mergedConfig.taskVersion === 'v2' ? `${mergedConfig.task}_v2` : mergedConfig.task]. *)
Definition taskName (mergedConfig : Config.t) : string :=
  match Config.taskVersion mergedConfig with
  | Some version =>
      if String.eqb version "v2" then Config.task mergedConfig ++ "_v2"
      else Config.task mergedConfig
  | None => Config.task mergedConfig
  end.

(** [createEnvironment(sessionId, config)] on the session map
    [environments]: what the call completes with, and the map afterwards. *)
Definition createEnvironment (environments : gmap string Env) (sessionId : string)
    (config : Overrides) : JS.completion Observation * gmap string Env :=
  let mergedConfig := merge config in
  let world := PhysicsWorld.new (Config.gravity mergedConfig) (Config.timeStep mergedConfig) in
  let taskName := taskName mergedConfig in
  match TASKS taskName with
  | None => (JS.Throw (unknownTask taskName), environments)
  | Some NotAConstructor =>
      (JS.Throw (JS.TypeError "TaskClass is not a constructor"), environments)
  | Some ObjectConstructor =>
      (* new Object(world, mergedConfig) returns its first argument *)
      let env := mkEnv world WorldObject mergedConfig 0 false 0 in
      (not_a_function "task.getObservation", <[sessionId := env]> environments)
  | Some (Class c) =>
      let '(world, mergedConfig, task) := construct c world mergedConfig in
      let env := mkEnv world task mergedConfig 0 false 0 in
      (getObservation "task.getObservation" world mergedConfig task,
       <[sessionId := env]> environments)
  end.

Record Info := mkInfo {
  info_step : option Z;
  info_success : option bool;
  info_reason : string;
  info_totalReward : option float
}.

Record StepResult := mkStepResult {
  observation : Observation;
  reward : float;
  result_done : bool;
  info : Info
}.

(** The tick loop of a step: [applyAction] then [world.step()], [n] more
    times from tick [i]; [clock i] is what [Date.now()] reads at tick [i]. *)
Fixpoint ticks (n i : nat) (clock : nat -> Z) (config : Config.t)
    (action : JS.value) (durationScale : option float)
    (world : PhysicsWorld.t) (task : Task)
  : option JS.error * PhysicsWorld.t * Task :=
  match n with
  | O => (None, world, task)
  | S n' =>
      match applyAction world config task action durationScale (clock i) with
      | JS.Throw e => (Some e, world, task)
      | JS.Normal (world, task) =>
          ticks n' (S i) clock config action durationScale (PhysicsWorld.step world) task
      end
  end.

(** [stepEnvironment(sessionId, action, params)]. The session object is
    mutated in place, so what was written before an exception stays. *)
Definition stepEnvironment (environments : gmap string Env) (sessionId : string)
    (action : JS.value) (durationScale : option float) (clock : nat -> Z)
  : JS.completion StepResult * gmap string Env :=
  match environments !! sessionId with
  | None => (JS.Throw (JS.Error ("No environment for session: " ++ sessionId)), environments)
  | Some env =>
      if done env then
        (map_completion
           (fun observation =>
              mkStepResult observation 0 true (mkInfo None None "already_done" None))
           (getObservation "env.task.getObservation" (world env) (config env) (task env)),
         environments)
      else
        let n := Z.to_nat (Config.physicsTicksPerStep (config env)) in
        match ticks n 0 clock (config env) action durationScale (world env) (task env) with
        | (Some e, world, task) =>
            (JS.Throw e,
             <[sessionId := mkEnv world task (config env) (stepCount env) (done env) (totalReward env)]>
               environments)
        | (None, world, task) =>
            let stepCount := (stepCount env + 1)%Z in
            match checkTermination world task with
            | JS.Throw e =>
                (JS.Throw e,
                 <[sessionId := mkEnv world task (config env) stepCount (done env) (totalReward env)]>
                   environments)
            | JS.Normal (result, task) =>
                let reward :=
                  getReward task (TerminationResult.done result) (TerminationResult.success result) in
                let env_done :=
                  TerminationResult.done result ||
                  (Config.maxSteps (config env) <=? stepCount)%Z in
                let total := totalReward env + reward in
                let environments :=
                  <[sessionId := mkEnv world task (config env) stepCount env_done total]>
                    environments in
                (map_completion
                   (fun observation =>
                      mkStepResult observation reward env_done
                        (mkInfo (Some stepCount) (Some (TerminationResult.success result))
                           (if env_done && negb (TerminationResult.done result)
                            then "timeout" else TerminationResult.reason result)
                           (Some total)))
                   (getObservation "env.task.getObservation" world (config env) task),
                 environments)
            end
        end
  end.

(** *** Driving a session

    A caller resets a session and then steps it; each step request carries
    an action and, optionally, [durationScale], and meets the clock readings
    [call_clock] at its ticks. *)

Record StepCall := mkCall {
  call_action : JS.value;
  call_durationScale : option float;
  call_clock : nat -> Z
}.

Fixpoint drive (environments : gmap string Env) (sessionId : string)
    (calls : list StepCall) : list (JS.completion StepResult) :=
  match calls with
  | [] => []
  | c :: rest =>
      let '(r, environments) :=
        stepEnvironment environments sessionId (call_action c) (call_durationScale c)
          (call_clock c) in
      r :: drive environments sessionId rest
  end.

(** The trajectory of a fresh session: the observation of the reset and
    what each step returned. A failed reset is not stepped. *)
Definition episode (environments : gmap string Env) (sessionId : string)
    (config : Overrides) (calls : list StepCall)
  : JS.completion Observation * list (JS.completion StepResult) :=
  match createEnvironment environments sessionId config with
  | (JS.Normal observation, environments) =>
      (JS.Normal observation, drive environments sessionId calls)
  | (JS.Throw e, _) => (JS.Throw e, [])
  end.

(** The session maps the two request handlers can produce from the empty
    map the server starts with. *)
Inductive reachable : gmap string Env -> Prop :=
| reachable_start : reachable ∅
| reachable_reset environments sessionId config :
    reachable environments ->
    reachable (snd (createEnvironment environments sessionId config))
| reachable_step environments sessionId action durationScale clock :
    reachable environments ->
    reachable (snd (stepEnvironment environments sessionId action durationScale clock)).

(** *** The success streak, uniformly over the task classes *)

Definition successSteps (task : Task) : nat :=
  match task with
  | GapTask this => GapCrossingTask.successSteps this
  | GapTaskV2 this => GapCrossingTaskV2.successSteps this
  | ThrowTask this => ThrowBlockTask.successSteps this
  | ThrowTaskV2 this => ThrowBlockTaskV2.successSteps this
  | WorldObject => 0
  end.

Definition requiredSuccessSteps (task : Task) : nat :=
  match task with
  | GapTask this => GapCrossingTask.requiredSuccessSteps this
  | GapTaskV2 this => GapCrossingTaskV2.requiredSuccessSteps this
  | ThrowTask this => ThrowBlockTask.requiredSuccessSteps this
  | ThrowTaskV2 this => ThrowBlockTaskV2.requiredSuccessSteps this
  | WorldObject => 0
  end.

Definition set_successSteps (task : Task) (n : nat) : Task :=
  match task with
  | GapTask this => GapTask (GapCrossingTask.set_successSteps this n)
  | GapTaskV2 this => GapTaskV2 (GapCrossingTaskV2.set_successSteps this n)
  | ThrowTask this => ThrowTask (ThrowBlockTask.set_successSteps this n)
  | ThrowTaskV2 this => ThrowTaskV2 (ThrowBlockTaskV2.set_successSteps this n)
  | WorldObject => WorldObject
  end.

(** The success predicate of a check: the agent inside the goal zone, or
    the block inside the basket and at rest. *)
Definition successPredicate (world : PhysicsWorld.t) (task : Task) : bool :=
  match task with
  | GapTask this => GapCrossingTask.inGoal world this
  | GapTaskV2 this => GapCrossingTaskV2.inGoal world this
  | ThrowTask this =>
      match PhysicsWorld.getBody world "block" with
      | Some block => ThrowBlockTask.inBasketAtRest (ThrowBlockTask.basketBounds this) block
      | None => false
      end
  | ThrowTaskV2 this =>
      match PhysicsWorld.getBody world "block" with
      | Some block => ThrowBlockTask.inBasketAtRest (ThrowBlockTaskV2.basketBounds this) block
      | None => false
      end
  | WorldObject => false
  end.


(** [this.actions], [this.holdingBlock] and [this.isGrounded] of a task object. *)
Definition actions (task : Task) : list string :=
  match task with
  | GapTask _ => GapCrossingTask.actions
  | GapTaskV2 _ => GapCrossingTaskV2.actions
  | ThrowTask _ => ThrowBlockTask.actions
  | ThrowTaskV2 _ => ThrowBlockTaskV2.actions
  | WorldObject => []
  end.

Definition holdingBlock (task : Task) : option bool :=
  match task with
  | ThrowTask this => Some (ThrowBlockTask.holdingBlock this)
  | ThrowTaskV2 this => Some (ThrowBlockTaskV2.holdingBlock this)
  | _ => None
  end.

Definition isGrounded (task : Task) : option bool :=
  match task with
  | GapTask this => Some (GapCrossingTask.isGrounded this)
  | GapTaskV2 this => Some (GapCrossingTaskV2.isGrounded this)
  | ThrowTask this => Some (ThrowBlockTask.isGrounded this)
  | ThrowTaskV2 this => Some (ThrowBlockTaskV2.isGrounded this)
  | WorldObject => None
  end.

(** An action no [case] label of the task matches: a number that is not an
    index of [actions], or a string whose lower-case form is not one of them. *)
Definition unrecognized (actions : list string) (action : JS.value) : bool :=
  match normalize actions action with
  | None => true
  | Some s => negb (existsb (String.eqb s) actions)
  end.

Definition isTaskInstance (task : Task) : bool :=
  match task with
  | WorldObject => false
  | _ => true
  end.

(** The own keys of [TASKS]: [Object.keys(TASKS)]. *)
Definition registered : list string := ["gap"; "throw"; "gap_v2"; "throw_v2"].

(** The three ways a check can go. *)
Inductive CheckOutcome (world : PhysicsWorld.t) (task : Task)
  : TerminationResult.t -> Task -> Prop :=
| check_failed result :
    TerminationResult.done result = true ->
    TerminationResult.success result = false ->
    CheckOutcome world task result task
| check_compliant result :
    successPredicate world task = true ->
    TerminationResult.done result
    = (requiredSuccessSteps task <=? S (successSteps task))%nat ->
    TerminationResult.success result
    = (requiredSuccessSteps task <=? S (successSteps task))%nat ->
    CheckOutcome world task result
      (set_successSteps task (S (successSteps task)))
| check_violated result :
    successPredicate world task = false ->
    TerminationResult.done result = false ->
    TerminationResult.success result = false ->
    CheckOutcome world task result (set_successSteps task 0).

(** *** Well-formed sessions *)

Definition present (world : PhysicsWorld.t) (name : string) : bool :=
  match PhysicsWorld.getBody world name with
  | Some _ => true
  | None => false
  end.

(** The bodies the methods of a task look up are in the world. *)
Definition bodiesPresent (world : PhysicsWorld.t) (task : Task) : bool :=
  match task with
  | GapTask _ | GapTaskV2 _ => present world "agent"
  | ThrowTask _ | ThrowTaskV2 _ => present world "agent" && present world "block"
  | WorldObject => true
  end.

(** A session holds a task instance whose bodies are present, or it holds
    the world in place of a task and is not done. *)
Definition sessionOk (env : Env) : bool :=
  match task env with
  | WorldObject => negb (done env)
  | task => bodiesPresent (world env) task
  end.

(** Every session of a map is well formed. *)
Definition registryOk (environments : gmap string Env) : Prop :=
  forall sessionId env,
    environments !! sessionId = Some env -> sessionOk env = true.

(** *** Who reads the clock *)

Definition readsClock (task : Task) : bool :=
  match task with
  | GapTaskV2 _ => true
  | _ => false
  end.

Definition usesClock (config : Overrides) : bool :=
  match TASKS (taskName (merge config)) with
  | Some (Class GapV2) => true
  | _ => false
  end.

(** Two step requests carry the same action and parameters; when [clocked],
    they also meet the same clock readings. *)
Definition sameRequest (clocked : bool) (c1 c2 : StepCall) : Prop :=
  call_action c1 = call_action c2
  /\ call_durationScale c1 = call_durationScale c2
  /\ (clocked = true -> forall i, call_clock c1 i = call_clock c2 i).

End WithHost.
End Server.

(** ** A small engine to run the model on

    Explicit Euler integration of the dynamic bodies under gravity above a
    floor, and truncated power series for the trigonometric functions. *)

Module Toy.
Local Open Scope float_scope.

Definition floor := 0.2.

Definition integrate (g dt : float) (b : Body) : Body :=
  if PrimFloat.eqb (mass b) 0 then b
  else
    let v := velocity b in
    let p := position b in
    let vy := y v - g * dt in
    let py := y p + vy * dt in
    let px := x p + x v * dt in
    let pz := z p + z v * dt in
    if PrimFloat.ltb py floor
    then set_velocity (set_position b (mkVec3 px floor pz)) (mkVec3 (x v) 0 (z v))
    else set_velocity (set_position b (mkVec3 px py pz)) (mkVec3 (x v) vy (z v)).

Fixpoint series (n : nat) (term k x2 acc : float) : float :=
  match n with
  | O => acc
  | S n' =>
      let term := (- term) * x2 / ((k + 1) * (k + 2)) in
      series n' term (k + 2) x2 (acc + term)
  end.

Definition cos (a : float) : float := series 12 1 0 (a * a) 1.
Definition sin (a : float) : float := series 12 a 1 (a * a) a.

Definition host : Host := {|
  Engine := unit;
  CANNON_World := tt;
  CANNON_step := fun g dt _ _ => (tt, fun _ b => integrate g dt b);
  Math_cos := cos;
  Math_sin := sin
|}.

End Toy.

(** ** Concrete requests *)

Module Scenario.
Local Open Scope float_scope.

(** [{}]: every default applies. *)
Definition defaults : Server.Overrides :=
  Server.mkOverrides None None None None None None None None None None None None None
    None None None.

(** [{ task, taskVersion, seed }] *)
Definition request (task : string) (taskVersion : option string) (seed : float)
  : Server.Overrides :=
  Server.mkOverrides (Some task) taskVersion None (Some seed) None None None None None None
    None None None None None None.

(** [{ task, taskVersion, maxSteps }] *)
Definition budgeted (task : string) (taskVersion : option string) (maxSteps : Z)
  : Server.Overrides :=
  Server.mkOverrides (Some task) taskVersion None None (Some maxSteps) None None None None
    None None None None None None None.

(** The body a world holds under a name (a body at rest at the origin if
    there is none). *)
Definition body (world : PhysicsWorld.t (H := Toy.host)) (name : string) : Body :=
  match PhysicsWorld.getBody world name with
  | Some b => b
  | None => mkBody (mkVec3 0 0 0) (mkVec3 0 0 0) 0 (Box (mkVec3 0 0 0)) false 0
  end.

(** The clock at the first request of the scenarios, in milliseconds. *)
Definition t0 : Z := 1700000000000.

(** A second-revision traversal task, freshly built. *)
Definition gapV2 : PhysicsWorld.t * Config.t * GapCrossingTaskV2.t :=
  GapCrossingTaskV2.new (H := Toy.host) (PhysicsWorld.new 9.81 (1 / 60))
    (Server.merge (request "gap" (Some "v2") 42)).

(** ... after [applyAction("back")] ... *)
Definition gapV2_back : PhysicsWorld.t * GapCrossingTaskV2.t :=
  GapCrossingTaskV2.applyAction (fst (fst gapV2)) (snd (fst gapV2)) (snd gapV2)
    (JS.Str "back") t0.

(** The agent at that point: at its start position, moving back at the
    move speed. *)
Definition gapV2_back_agent : Body :=
  mkBody (mkVec3 ((- GapCrossingTaskV2.platformWidth) / 3)
            (GapCrossingTaskV2.agentHeight / 2 + 0.1) 0)
    (mkVec3 (-3) 0 0) GapCrossingTaskV2.agentMass
    (Capsule GapCrossingTaskV2.agentRadius
       (GapCrossingTaskV2.agentHeight - 2 * GapCrossingTaskV2.agentRadius))
    true 0.

(** ... and then [applyAction("jump")] a second later. *)
Definition gapV2_back_jump : PhysicsWorld.t * GapCrossingTaskV2.t :=
  GapCrossingTaskV2.applyAction (fst gapV2_back) (snd (fst gapV2)) (snd gapV2_back)
    (JS.Str "jump") (t0 + 1000).

(** A first-revision traversal task, freshly built. *)
Definition gapV1 : PhysicsWorld.t * Config.t * GapCrossingTask.t :=
  GapCrossingTask.new (H := Toy.host) (PhysicsWorld.new 9.81 (1 / 60))
    (Server.merge (request "gap" None 42)).

(** A first-revision manipulation task, freshly built, after
    [applyAction("pick")] and then after [applyAction("throw_medium")]. *)
Definition throwV1 : PhysicsWorld.t * Config.t * ThrowBlockTask.t :=
  ThrowBlockTask.new (H := Toy.host) (PhysicsWorld.new 9.81 (1 / 60))
    (Server.merge (request "throw" None 42)).

Definition throwV1_pick : PhysicsWorld.t * ThrowBlockTask.t :=
  ThrowBlockTask.applyAction (fst (fst throwV1)) (snd (fst throwV1)) (snd throwV1)
    (JS.Str "pick").

Definition throwV1_throw : PhysicsWorld.t * ThrowBlockTask.t :=
  ThrowBlockTask.applyAction (fst throwV1_pick) (snd (fst throwV1)) (snd throwV1_pick)
    (JS.Str "throw_medium").

(** The same for the second revision. *)
Definition throwV2 : PhysicsWorld.t * Config.t * ThrowBlockTaskV2.t :=
  ThrowBlockTaskV2.new (H := Toy.host) (PhysicsWorld.new 9.81 (1 / 60))
    (Server.merge (request "throw" (Some "v2") 42)).

Definition throwV2_pick : PhysicsWorld.t * ThrowBlockTaskV2.t :=
  ThrowBlockTaskV2.applyAction (fst (fst throwV2)) (snd (fst throwV2)) (snd throwV2)
    (JS.Str "pick") None.

Definition throwV2_throw : PhysicsWorld.t * ThrowBlockTaskV2.t :=
  ThrowBlockTaskV2.applyAction (fst throwV2_pick) (snd (fst throwV2)) (snd throwV2_pick)
    (JS.Str "throw_medium") None.



(** A point inside the goal zone of [gapV1], and a point below the floor
    threshold. *)
Definition inGoal : Vec3 := mkVec3 8 1 0.

(** Eight [jump] requests to a second-revision traversal session, once
    from a caller that sends a request every 10 ms and once from a caller
    that sends one every second. The clock advances 1 ms per tick. *)
Definition jumps (period : Z) : list Server.StepCall :=
  map (fun k => Server.mkCall (JS.Str "jump") None
                  (fun i => t0 + period * Z.of_nat k + Z.of_nat i)%Z)
      (seq 0 8).

Definition fast : list Server.StepCall := jumps 10.
Definition slow : list Server.StepCall := jumps 1000.

(** The height of the agent in the observation a step returned. *)
Definition agentHeight (r : JS.completion Server.StepResult) : option float :=
  match r with
  | JS.Normal result =>
      match Server.observation result with
      | Server.GapObservation o => Some (y (GapCrossingTask.obs_agentPosition o))
      | Server.GapV2Observation o => Some (y (GapCrossingTaskV2.obs_agentPosition o))
      | Server.ThrowObservation o => Some (y (ThrowBlockTask.obs_agentPosition o))
      | Server.ThrowV2Observation o => Some (y (ThrowBlockTaskV2.obs_agentPosition o))
      end
  | JS.Throw _ => None
  end.

(** A traversal session with a step budget of one, before and after its
    only live step. *)
Definition freshRegistry : gmap string Server.Env :=
  snd (Server.createEnvironment (H := Toy.host) ∅ "agent-1" (budgeted "gap" None 1)).

Definition doneRegistry : gmap string Server.Env :=
  snd (Server.stepEnvironment (H := Toy.host) freshRegistry "agent-1" (JS.Str "forward") None
         (fun _ => t0)).

(** The session a map holds under ["agent-1"] (an empty session if none). *)
Definition session (environments : gmap string Server.Env) : Server.Env :=
  match environments !! "agent-1" with
  | Some env => env
  | None =>
      Server.mkEnv (PhysicsWorld.new (H := Toy.host) 0 0) Server.WorldObject
        (Server.merge defaults) 0 false 0
  end.

(** The agent height the [k]-th step of an episode reported. *)
Definition heightAt (trajectory : JS.completion Server.Observation
                                  * list (JS.completion Server.StepResult)) (k : nat)
  : float :=
  match nth_error (snd trajectory) k with
  | Some r => match agentHeight r with Some h => h | None => PrimFloat.nan end
  | None => PrimFloat.nan
  end.

End Scenario.

(** * Properties *)

(** ** The host primitives on examples *)

Example truncate_exact : JS.truncate 46347652635%float = 46347652635%Z.
Proof. vm_compute. reflexivity. Qed.

Example ToInt32_wraps : JS.ToInt32 4294967301%float = 5%Z.
Proof. vm_compute. reflexivity. Qed.

Example bitand_negative : JS.bitand (-1)%float 2147483647%float = 2147483647%Z.
Proof. vm_compute. reflexivity. Qed.

Example toLowerCase_mixed : JS.toLowerCase "JuMp_x" = "jump_x".
Proof. vm_compute. reflexivity. Qed.

Example array_get_indices :
  JS.array_get ["a"; "b"] (-0)%float = Some "a" /\
  JS.array_get ["a"; "b"] 1%float = Some "b" /\
  JS.array_get ["a"; "b"] 1.5%float = None /\
  JS.array_get ["a"; "b"] 2%float = None /\
  JS.array_get ["a"; "b"] PrimFloat.nan = None.
Proof. vm_compute. repeat split; reflexivity. Qed.

(** ** The body map *)

Section BodyMap.
Context `{Host}.

Lemma Map_get_set_eq (m : list (string * Body)) (name : string) (b : Body) :
  PhysicsWorld.Map_get (PhysicsWorld.Map_set m name b) name = Some b.
Proof.
  induction m as [|[k b0] m IH]; simpl.
  - rewrite String.eqb_refl. reflexivity.
  - destruct (String.eqb k name) eqn:E; simpl; rewrite E; auto.
Qed.

Lemma Map_get_set_ne (m : list (string * Body)) (name other : string) (b : Body) :
  name <> other ->
  PhysicsWorld.Map_get (PhysicsWorld.Map_set m name b) other = PhysicsWorld.Map_get m other.
Proof.
  intros Hne. induction m as [|[k b0] m IH]; simpl.
  - apply String.eqb_neq in Hne. rewrite Hne. reflexivity.
  - destruct (String.eqb k name) eqn:E; simpl.
    + apply String.eqb_eq in E. subst k.
      apply String.eqb_neq in Hne. rewrite Hne. reflexivity.
    + destruct (String.eqb k other); auto.
Qed.

Lemma Map_get_map (f : string -> Body -> Body) (m : list (string * Body)) (name : string) :
  PhysicsWorld.Map_get (map (fun kb => (fst kb, f (fst kb) (snd kb))) m) name
  = option_map (f name) (PhysicsWorld.Map_get m name).
Proof.
  induction m as [|[k b0] m IH]; simpl; auto.
  destruct (String.eqb k name) eqn:E; auto.
  apply String.eqb_eq in E. subst. reflexivity.
Qed.

Lemma getBody_putBody_eq (w : PhysicsWorld.t) (name : string) (b : Body) :
  PhysicsWorld.getBody (PhysicsWorld.putBody w name b) name = Some b.
Proof. apply Map_get_set_eq. Qed.

Lemma getBody_putBody_ne (w : PhysicsWorld.t) (name other : string) (b : Body) :
  name <> other ->
  PhysicsWorld.getBody (PhysicsWorld.putBody w name b) other = PhysicsWorld.getBody w other.
Proof. apply Map_get_set_ne. Qed.

Lemma getBody_addBody_eq (w : PhysicsWorld.t) (name : string) (b : Body) :
  PhysicsWorld.getBody (PhysicsWorld.addBody w name b) name = Some b.
Proof. apply Map_get_set_eq. Qed.

Lemma getBody_addBody_ne (w : PhysicsWorld.t) (name other : string) (b : Body) :
  name <> other ->
  PhysicsWorld.getBody (PhysicsWorld.addBody w name b) other = PhysicsWorld.getBody w other.
Proof. apply Map_get_set_ne. Qed.

(** A physics step keeps every named body (and adds none). *)
Lemma getBody_step (w : PhysicsWorld.t) (name : string) :
  is_Some (PhysicsWorld.getBody (PhysicsWorld.step w) name)
  <-> is_Some (PhysicsWorld.getBody w name).
Proof.
  unfold PhysicsWorld.step, PhysicsWorld.getBody.
  destruct (CANNON_step _ _ _ _) as [e next]. simpl.
  rewrite Map_get_map.
  destruct (PhysicsWorld.Map_get (PhysicsWorld.bodies w) name); simpl;
    split; intros [b' Hb]; try discriminate; eauto.
Qed.

Lemma getBodyState_Some (w : PhysicsWorld.t) (name : string) (b : Body) :
  PhysicsWorld.getBody w name = Some b ->
  PhysicsWorld.getBodyState w name = Some (position b, velocity b).
Proof.
  unfold PhysicsWorld.getBody, PhysicsWorld.getBodyState. intros ->. reflexivity.
Qed.

End BodyMap.

(** ** The seeded generator *)

(** Each task constructor draws from the generator once: the configuration
    it leaves behind is the one a single [seededRandom] call leaves. *)
Lemma construct_draws_once `{Host} (c : Server.TaskClass) (world : PhysicsWorld.t)
    (config : Config.t) :
  snd (fst (Server.construct c world config)) = snd (BaseTask.seededRandom config).
Proof.
  destruct c; unfold Server.construct, GapCrossingTask.new, GapCrossingTaskV2.new,
    ThrowBlockTask.new, ThrowBlockTaskV2.new, ThrowBlockTask.buildScene,
    BaseTask.randomInRange;
    destruct (BaseTask.seededRandom config) as [r config']; try reflexivity.
  destruct (Config.landingZoneStart config), (Config.landingZoneEnd config),
    (Config.landingZoneWidth config); reflexivity.
Qed.

(** On the default seed the generator state is the linear-congruential
    successor of 42. *)
Example seededRandom_default_seed :
  Config.seed (snd (BaseTask.seededRandom (Server.merge Scenario.defaults)))
  = JS.of_Z ((42 * 1103515245 + 12345) mod 2 ^ 31).
Proof. vm_compute. reflexivity. Qed.

(** C3 (the code at the failing input). With the configured seed
    2147483647 the product [seed * 1103515245] exceeds 2^53 and is rounded
    by the double-precision multiplication, so the state [seededRandom]
    stores is 1043980800, whereas the linear-congruential recurrence
    [(seed * 1103515245 + 12345) mod 2^31] gives 1043980748. *)
Theorem C3_large_seed_leaves_the_recurrence :
  Config.seed
    (snd (BaseTask.seededRandom
            (Server.merge (Scenario.request "gap" None 2147483647%float))))
  = 1043980800%float
  /\ ((2147483647 * 1103515245 + 12345) mod 2 ^ 31 = 1043980748)%Z.
Proof. split; vm_compute; reflexivity. Qed.

(** ** Reset with a task name outside the registry *)

Section Reset.
Context `{Host}.

(** A name that resolves to nothing fails the reset and leaves the session
    map alone. *)
Lemma createEnvironment_unknown (environments : gmap string Server.Env)
    (sessionId : string) (config : Server.Overrides) :
  Server.TASKS (Server.taskName (Server.merge config)) = None ->
  Server.createEnvironment environments sessionId config
  = (JS.Throw (Server.unknownTask (Server.taskName (Server.merge config))), environments).
Proof.
  intros Hnone. unfold Server.createEnvironment.
  rewrite Hnone. reflexivity.
Qed.

(** So does a name that resolves to a built-in method of [Object.prototype]. *)
Lemma createEnvironment_not_a_constructor (environments : gmap string Server.Env)
    (sessionId : string) (config : Server.Overrides) :
  Server.TASKS (Server.taskName (Server.merge config)) = Some Server.NotAConstructor ->
  snd (Server.createEnvironment environments sessionId config) = environments.
Proof.
  intros Hnac. unfold Server.createEnvironment.
  rewrite Hnac. reflexivity.
Qed.

End Reset.

Example reset_unknown_task :
  Server.createEnvironment (H := Toy.host) ∅ "agent-1" (Scenario.request "maze" None 42%float)
  = (JS.Throw (JS.Error "Unknown task: maze (available: gap, throw, gap_v2, throw_v2)"), ∅).
Proof. apply createEnvironment_unknown. reflexivity. Qed.

(** C9 (the code at the failing input). [constructor] is not a key of the
    registry, yet [TASKS["constructor"]] is the inherited [Object] function:
    the unknown-task guard is passed, [new Object(world, mergedConfig)]
    returns the world, and the session map is written before
    [task.getObservation()] throws. A live session under the same identifier
    is replaced by one whose task is not a task instance. *)
Theorem C9_constructor_replaces_the_session :
  let live := snd (Server.createEnvironment (H := Toy.host) ∅ "agent-1" Scenario.defaults) in
  let config := Scenario.request "constructor" None 42%float in
  let outcome := Server.createEnvironment (H := Toy.host) live "agent-1" config in
  existsb (String.eqb (Server.taskName (Server.merge config))) Server.registered = false
  /\ (Server.isTaskInstance ∘ Server.task) <$> (live !! "agent-1") = Some true
  /\ fst outcome = JS.Throw (JS.TypeError "task.getObservation is not a function")
  /\ (Server.isTaskInstance ∘ Server.task) <$> (snd outcome !! "agent-1") = Some false.
Proof. vm_compute. repeat split; reflexivity. Qed.

(** ** Jump impulse *)

Section Jump.
Context `{Host}.

(** C6, as amended. An accepted jump sets the agent's vertical velocity to
    [sqrt(2 * g * h)] for the configured gravity and the task's jump height
    (2.0 in the first revision, 1.2 in the second); in the second revision
    that velocity is multiplied by the run-up bonus exactly when the agent's
    forward velocity (the signed x component) exceeds half the move speed. *)
Theorem C6_jump_velocity (world : PhysicsWorld.t) (config : Config.t)
    (action : JS.value) (agent : Body) :
  PhysicsWorld.getBody world "agent" = Some agent ->
  (forall this : GapCrossingTask.t,
      GapCrossingTask.switch (normalize GapCrossingTask.actions action) = GapCrossingTask.jump ->
      GapCrossingTask.jumpAccepted this agent = true ->
      (y ∘ velocity) <$>
        PhysicsWorld.getBody (fst (GapCrossingTask.applyAction world config this action)) "agent"
      = Some (JS.Math_sqrt (2 * Config.gravity config * GapCrossingTask.desiredHeight))%float)
  /\ (forall (this : GapCrossingTaskV2.t) (now : Z),
      GapCrossingTaskV2.switch (normalize GapCrossingTaskV2.actions action)
      = GapCrossingTaskV2.jump ->
      GapCrossingTaskV2.jumpAccepted this agent now = true ->
      (y ∘ velocity) <$>
        PhysicsWorld.getBody (fst (GapCrossingTaskV2.applyAction world config this action now))
          "agent"
      = Some (if PrimFloat.ltb (GapCrossingTaskV2.moveSpeed * 0.5) (x (velocity agent))
              then JS.Math_sqrt (2 * Config.gravity config * GapCrossingTaskV2.jumpHeight)
                   * GapCrossingTaskV2.runUpBonus
              else JS.Math_sqrt (2 * Config.gravity config * GapCrossingTaskV2.jumpHeight))%float).
Proof.
  intros Hagent. split.
  - intros this Hcase Hacc. unfold GapCrossingTask.applyAction.
    rewrite Hagent, Hcase, Hacc. cbn [fst]. rewrite getBody_putBody_eq. reflexivity.
  - intros this now Hcase Hacc. unfold GapCrossingTaskV2.applyAction.
    rewrite Hagent, Hcase, Hacc. cbn [fst]. rewrite getBody_putBody_eq.
    destruct (PrimFloat.ltb _ _); reflexivity.
Qed.

End Jump.

(** C6 at the jump of [Scenario.gapV2_back_jump]: no bonus, since the
    agent moves backwards. *)
Lemma C6_jump_velocity_witness :
  (y ∘ velocity) <$>
    PhysicsWorld.getBody (H := Toy.host) (fst Scenario.gapV2_back_jump) "agent"
  = Some (JS.Math_sqrt (2 * 9.81 * GapCrossingTaskV2.jumpHeight))%float.
Proof.
  assert (Hagent : PhysicsWorld.getBody (H := Toy.host) (fst Scenario.gapV2_back) "agent"
                   = Some Scenario.gapV2_back_agent)
    by (vm_compute; reflexivity).
  exact (proj2 (C6_jump_velocity (H := Toy.host) (fst Scenario.gapV2_back)
                  (snd (fst Scenario.gapV2)) (JS.Str "jump") _ Hagent)
           (snd Scenario.gapV2_back) (Scenario.t0 + 1000)%Z eq_refl eq_refl).
Defined.

(** C6 (counterexample). After [back] the agent of a fresh second-revision
    task moves at the full move speed, 3 m/s, along -x: its horizontal speed
    exceeds half the move speed. The jump that follows is accepted and sets
    the vertical velocity to [sqrt(2 * g * h)] without the bonus factor. *)
Lemma C6_no_bonus_for_backward_speed :
  PhysicsWorld.getBody (H := Toy.host) (fst Scenario.gapV2_back) "agent"
  = Some Scenario.gapV2_back_agent
  /\ velocity Scenario.gapV2_back_agent = mkVec3 (-3) 0 0
  /\ PrimFloat.ltb (GapCrossingTaskV2.moveSpeed * 0.5)%float
       (JS.Math_sqrt ((-3) * (-3) + 0 * 0))%float = true
  /\ GapCrossingTaskV2.jumpAccepted (snd Scenario.gapV2_back) Scenario.gapV2_back_agent
       (Scenario.t0 + 1000) = true
  /\ (y ∘ velocity) <$>
       PhysicsWorld.getBody (H := Toy.host) (fst Scenario.gapV2_back_jump) "agent"
     = Some (JS.Math_sqrt (2 * 9.81 * GapCrossingTaskV2.jumpHeight))%float
  /\ PrimFloat.ltb (JS.Math_sqrt (2 * 9.81 * GapCrossingTaskV2.jumpHeight))%float
       (JS.Math_sqrt (2 * 9.81 * GapCrossingTaskV2.jumpHeight) * GapCrossingTaskV2.runUpBonus)%float
     = true.
Proof. vm_compute. repeat split; reflexivity. Qed.

(** ** Picking, holding and throwing *)

Section Manipulation.
Context `{Host}.

Lemma agent_is_not_block : "block" <> "agent".
Proof. discriminate. Qed.

(** What [applyAction] leaves in the world when both bodies exist: the
    block body it wrote and the agent body it wrote. *)
Lemma getBody_block_after (world : PhysicsWorld.t) (agent block : Body) :
  PhysicsWorld.getBody
    (PhysicsWorld.putBody (PhysicsWorld.putBody world "block" block) "agent" agent) "block"
  = Some block.
Proof.
  rewrite getBody_putBody_ne by discriminate. apply getBody_putBody_eq.
Qed.

(** C7, as amended. A throw issued while the block is held releases the
    block. In the second revision the block's velocity is the decomposition
    of the table magnitude [v] at the fixed launch angle: [v cos(theta)]
    along the planar unit vector from the release point to the basket centre
    and [v sin(theta)] upwards. In the first revision there is neither an
    angle nor aiming: the velocity is [v] along +x and
    [0.5 v sqrt(g / 9.81)] upwards. *)
Theorem C7_throw_velocity (world : PhysicsWorld.t) (config : Config.t)
    (action : JS.value) (agent block : Body) (k : strengthKey) :
  PhysicsWorld.getBody world "agent" = Some agent ->
  PhysicsWorld.getBody world "block" = Some block ->
  ThrowBlockTask.switch (normalize ThrowBlockTask.actions action) = ThrowBlockTask.throw k ->
  (forall this : ThrowBlockTask.t,
      ThrowBlockTask.holdingBlock this = true ->
      let after := ThrowBlockTask.applyAction world config this action in
      let v := ThrowBlockTask.throwStrengths k in
      velocity <$> PhysicsWorld.getBody (fst after) "block"
      = Some (mkVec3 v (v * 0.5 * JS.Math_sqrt (Config.gravity config / 9.81)) 0)%float
      /\ ThrowBlockTask.holdingBlock (snd after) = false)
  /\ (forall (this : ThrowBlockTaskV2.t) (durationScale : option float),
      ThrowBlockTaskV2.holdingBlock this = true ->
      let after := ThrowBlockTaskV2.applyAction world config this action durationScale in
      let v := ThrowBlockTaskV2.throwStrengths k in
      let theta := ThrowBlockTaskV2.throwAngle in
      let release :=
        (mkVec3 (x (position agent) + 0.6) (y (position agent) + 0.4) (z (position agent)))%float in
      let toBasketX := (ThrowBlockTaskV2.actualBasketDistance this - x release)%float in
      let toBasketZ := (0 - z release)%float in
      let distance := JS.Math_sqrt (toBasketX * toBasketX + toBasketZ * toBasketZ)%float in
      (position <$> PhysicsWorld.getBody (fst after) "block" = Some release
       /\ velocity <$> PhysicsWorld.getBody (fst after) "block"
          = Some (mkVec3 (v * Math_cos theta * (toBasketX / distance))
                         (v * Math_sin theta)
                         (v * Math_cos theta * (toBasketZ / distance)))%float)
      /\ ThrowBlockTaskV2.holdingBlock (snd after) = false).
Proof.
  intros Hagent Hblock Hcase. split.
  - intros this Hheld. unfold ThrowBlockTask.applyAction.
    rewrite Hagent, Hblock, Hcase, Hheld. cbn [fst snd].
    rewrite getBody_block_after. split; reflexivity.
  - intros this durationScale Hheld. unfold ThrowBlockTaskV2.applyAction.
    change ThrowBlockTaskV2.actions with ThrowBlockTask.actions.
    rewrite Hagent, Hblock, Hcase, Hheld. cbn [fst snd].
    rewrite getBody_block_after. repeat split; reflexivity.
Qed.


End Manipulation.

(** C7 at a [throw_medium] of the second revision from the start position:
    the basket lies straight ahead, so the aimed direction is +x. *)
Lemma C7_throw_velocity_witness :
  velocity <$> PhysicsWorld.getBody (H := Toy.host) (fst Scenario.throwV2_throw) "block"
  = Some (mkVec3 (6 * Toy.cos ThrowBlockTaskV2.throwAngle) (6 * Toy.sin ThrowBlockTaskV2.throwAngle) 0)%float
  /\ ThrowBlockTaskV2.holdingBlock (snd Scenario.throwV2_throw) = false.
Proof.
  assert (Hagent : PhysicsWorld.getBody (H := Toy.host) (fst Scenario.throwV2_pick) "agent"
                   = Some (Scenario.body (fst Scenario.throwV2_pick) "agent"))
    by (vm_compute; reflexivity).
  assert (Hblock : PhysicsWorld.getBody (H := Toy.host) (fst Scenario.throwV2_pick) "block"
                   = Some (Scenario.body (fst Scenario.throwV2_pick) "block"))
    by (vm_compute; reflexivity).
  pose proof (proj2 (C7_throw_velocity (H := Toy.host) (fst Scenario.throwV2_pick)
                       (snd (fst Scenario.throwV2)) (JS.Str "throw_medium") _ _ medium
                       Hagent Hblock eq_refl)
                (snd Scenario.throwV2_pick) None eq_refl) as [[_ Hvelocity] Hreleased].
  split; [ | exact Hreleased ].
  etransitivity; [ exact Hvelocity | vm_compute; reflexivity ].
Defined.

(** C7 (counterexample). In the first revision, [throw_medium] on a held
    block under the default gravity gives the block the velocity (10, 5, 0):
    its length exceeds the table magnitude 10, so it is no decomposition
    (10 cos(theta) d, 10 sin(theta)) of that magnitude for any angle and
    unit vector [d], and it points along +x wherever the basket is. *)
Lemma C7_first_revision_is_not_a_decomposition :
  ThrowBlockTask.holdingBlock (snd Scenario.throwV1_pick) = true
  /\ ThrowBlockTask.throwStrengths medium = 10%float
  /\ velocity <$> PhysicsWorld.getBody (H := Toy.host) (fst Scenario.throwV1_throw) "block"
     = Some (mkVec3 10 5 0)%float
  /\ PrimFloat.ltb 10 (ThrowBlockTask.speed (mkVec3 10 5 0)) = true.
Proof. vm_compute. repeat split; reflexivity. Qed.


(** ** Actions outside the vocabulary *)

Section Unrecognized.
Context `{Host}.

Lemma existsb_false_cons (s : string) (name : string) (names : list string) :
  existsb (String.eqb s) (name :: names) = false ->
  String.eqb s name = false /\ existsb (String.eqb s) names = false.
Proof. cbn [existsb]. apply orb_false_iff. Qed.

Ltac names_false H :=
  repeat match type of H with
  | existsb (String.eqb ?s) (_ :: _) = false =>
      let Hname := fresh "Hname" in
      apply existsb_false_cons in H; destruct H as [Hname H]
  end.

Lemma gap_switch_default (action : JS.value) :
  Server.unrecognized GapCrossingTask.actions action = true ->
  GapCrossingTask.switch (normalize GapCrossingTask.actions action) = GapCrossingTask.default.
Proof.
  unfold Server.unrecognized. destruct (normalize _ action) as [s|]; [ | reflexivity ].
  rewrite negb_true_iff. unfold GapCrossingTask.actions. intros Hnot. names_false Hnot.
  unfold GapCrossingTask.switch, is_case.
  repeat match goal with Hn : String.eqb s _ = false |- _ => rewrite Hn; clear Hn end.
  reflexivity.
Qed.

Lemma gapV2_switch_default (action : JS.value) :
  Server.unrecognized GapCrossingTaskV2.actions action = true ->
  GapCrossingTaskV2.switch (normalize GapCrossingTaskV2.actions action)
  = GapCrossingTaskV2.default.
Proof.
  unfold Server.unrecognized. destruct (normalize _ action) as [s|]; [ | reflexivity ].
  rewrite negb_true_iff. unfold GapCrossingTaskV2.actions. intros Hnot. names_false Hnot.
  unfold GapCrossingTaskV2.switch, is_case.
  repeat match goal with Hn : String.eqb s _ = false |- _ => rewrite Hn; clear Hn end.
  reflexivity.
Qed.

Lemma throw_switch_default (action : JS.value) :
  Server.unrecognized ThrowBlockTask.actions action = true ->
  ThrowBlockTask.switch (normalize ThrowBlockTask.actions action) = ThrowBlockTask.default.
Proof.
  unfold Server.unrecognized. destruct (normalize _ action) as [s|]; [ | reflexivity ].
  rewrite negb_true_iff. unfold ThrowBlockTask.actions. intros Hnot. names_false Hnot.
  unfold ThrowBlockTask.switch, is_case.
  repeat match goal with Hn : String.eqb s _ = false |- _ => rewrite Hn; clear Hn end.
  reflexivity.
Qed.

(** C10, as amended. An action that is neither an action name (after
    lower-casing) nor an index into the action list raises no exception and
    is handled exactly like ["idle"]: the default branch scales the agent's
    horizontal velocity by the drag factor. The holding flag and the success
    streak keep their values; the steps around the [switch] run as for any
    action, so the grounded flag is recomputed and the horizontal velocity
    is clamped to the task's maximum speed. *)
Theorem C10_unrecognized_action_is_idle (world : PhysicsWorld.t) (config : Config.t)
    (task : Server.Task) (action : JS.value) (durationScale : option float) (now : Z) :
  Server.isTaskInstance task = true ->
  Server.unrecognized (Server.actions task) action = true ->
  exists (world' : PhysicsWorld.t) (task' : Server.Task),
    Server.applyAction world config task action durationScale now = JS.Normal (world', task')
    /\ Server.applyAction world config task (JS.Str "idle") durationScale now
       = JS.Normal (world', task')
    /\ Server.holdingBlock task' = Server.holdingBlock task
    /\ Server.successSteps task' = Server.successSteps task
    /\ forall agent : Body,
        PhysicsWorld.getBody world "agent" = Some agent ->
        match task with
        | Server.ThrowTask _ | Server.ThrowTaskV2 _ =>
            is_Some (PhysicsWorld.getBody world "block")
        | _ => True
        end ->
        Server.isGrounded task' = Some (grounded 1.8 agent)
        /\ PhysicsWorld.getBody world' "agent"
           = Some match task with
                  | Server.GapTask _ => clampHorizontal 5.0 (scaleHorizontal 0.9 agent)
                  | Server.GapTaskV2 _ =>
                      clampHorizontal 4.0
                        (scaleHorizontal (if grounded 1.8 agent then 0.85 else 0.98) agent)
                  | _ => clampHorizontal 4.0 (scaleHorizontal 0.9 agent)
                  end.
Proof.
  intros Hinstance Hunrec.
  destruct task as [this|this|this|this|]; try discriminate; cbn [Server.actions] in Hunrec;
    cbn [Server.applyAction].
  - unfold GapCrossingTask.applyAction.
    rewrite (gap_switch_default _ Hunrec).
    change (GapCrossingTask.switch (normalize GapCrossingTask.actions (JS.Str "idle")))
      with GapCrossingTask.default.
    destruct (PhysicsWorld.getBody world "agent") as [agent|] eqn:Hagent.
    + eexists _, _. do 4 (split; [ reflexivity | ]). intros a Ha _. injection Ha as <-.
      split; [ reflexivity | apply getBody_putBody_eq ].
    + eexists _, _. do 4 (split; [ reflexivity | ]). intros a Ha. discriminate.
  - unfold GapCrossingTaskV2.applyAction.
    rewrite (gapV2_switch_default _ Hunrec).
    change (GapCrossingTaskV2.switch (normalize GapCrossingTaskV2.actions (JS.Str "idle")))
      with GapCrossingTaskV2.default.
    destruct (PhysicsWorld.getBody world "agent") as [agent|] eqn:Hagent.
    + change GapCrossingTaskV2.agentHeight with 1.8%float.
      destruct (grounded 1.8 agent) eqn:Hgrounded;
        eexists _, _; do 4 (split; [ reflexivity | ]); intros a Ha _; injection Ha as <-;
        rewrite Hgrounded; (split; [ reflexivity | apply getBody_putBody_eq ]).
    + eexists _, _. do 4 (split; [ reflexivity | ]). intros a Ha. discriminate.
  - unfold ThrowBlockTask.applyAction.
    rewrite (throw_switch_default _ Hunrec).
    change (ThrowBlockTask.switch (normalize ThrowBlockTask.actions (JS.Str "idle")))
      with ThrowBlockTask.default.
    destruct (PhysicsWorld.getBody world "agent") as [agent|] eqn:Hagent;
      destruct (PhysicsWorld.getBody world "block") as [block|] eqn:Hblock;
      eexists _, _; do 4 (split; [ reflexivity | ]); intros a Ha [b Hb]; try discriminate.
    injection Ha as <-. split; [ reflexivity | apply getBody_putBody_eq ].
  - unfold ThrowBlockTaskV2.applyAction.
    change ThrowBlockTaskV2.actions with ThrowBlockTask.actions.
    rewrite (throw_switch_default _ Hunrec).
    change (ThrowBlockTask.switch (normalize ThrowBlockTask.actions (JS.Str "idle")))
      with ThrowBlockTask.default.
    destruct (PhysicsWorld.getBody world "agent") as [agent|] eqn:Hagent;
      destruct (PhysicsWorld.getBody world "block") as [block|] eqn:Hblock;
      eexists _, _; do 4 (split; [ reflexivity | ]); intros a Ha [b Hb]; try discriminate.
    injection Ha as <-. split; [ reflexivity | apply getBody_putBody_eq ].
Qed.

End Unrecognized.

(** C10 at the action ["fly"] on a freshly built traversal task. *)
Lemma C10_unrecognized_action_is_idle_witness :
  Server.applyAction (H := Toy.host) (fst (fst Scenario.gapV1)) (snd (fst Scenario.gapV1))
    (Server.GapTask (snd Scenario.gapV1)) (JS.Str "fly") None Scenario.t0
  = Server.applyAction (H := Toy.host) (fst (fst Scenario.gapV1)) (snd (fst Scenario.gapV1))
      (Server.GapTask (snd Scenario.gapV1)) (JS.Str "idle") None Scenario.t0.
Proof.
  destruct (C10_unrecognized_action_is_idle (H := Toy.host) (fst (fst Scenario.gapV1))
              (snd (fst Scenario.gapV1)) (Server.GapTask (snd Scenario.gapV1))
              (JS.Str "fly") None Scenario.t0 eq_refl eq_refl)
    as (world' & task' & Hfly & Hidle & _).
  rewrite Hfly, Hidle. reflexivity.
Defined.

(** C10 (counterexample). ["fly"] is no action of the traversal task. On a
    freshly built task, whose grounded flag is still [false], applying it
    sets the flag: the agent rests at its start height. *)
Lemma C10_unrecognized_action_sets_grounded :
  Server.unrecognized GapCrossingTask.actions (JS.Str "fly") = true
  /\ GapCrossingTask.isGrounded (snd Scenario.gapV1) = false
  /\ GapCrossingTask.isGrounded
       (snd (GapCrossingTask.applyAction (H := Toy.host) (fst (fst Scenario.gapV1))
               (snd (fst Scenario.gapV1)) (snd Scenario.gapV1) (JS.Str "fly")))
     = true.
Proof. vm_compute. repeat split; reflexivity. Qed.

(** ** The success streak *)

Section Streak.
Context `{Host}.






Lemma isTaskInstance_set (task : Server.Task) (n : nat) :
  Server.isTaskInstance (Server.set_successSteps task n) = Server.isTaskInstance task.
Proof. destruct task; reflexivity. Qed.

Lemma checkTermination_outcome (world : PhysicsWorld.t) (task : Server.Task) :
  Server.isTaskInstance task = true ->
  exists result task',
    Server.checkTermination world task = JS.Normal (result, task')
    /\ Server.CheckOutcome world task result task'.
Proof.
  intros Hinstance.
  destruct task as [this|this|this|this|]; try discriminate;
    cbn [Server.checkTermination].
  - unfold GapCrossingTask.checkTermination.
    destruct (PhysicsWorld.getBody world "agent") as [agent|] eqn:Hagent.
    + destruct (PrimFloat.ltb (y (position agent)) (-5)) eqn:Hfell.
      * eexists _, _. split; [ reflexivity | ]. apply Server.check_failed; reflexivity.
      * destruct (inside (GapCrossingTask.goalZone this) (position agent)) eqn:Hin.
        -- cbn [GapCrossingTask.set_successSteps GapCrossingTask.requiredSuccessSteps
                GapCrossingTask.successSteps].
           destruct (_ <=? _)%nat eqn:Hreached; eexists _, _; (split; [ reflexivity | ]);
             apply (Server.check_compliant world (Server.GapTask this));
             cbn; unfold GapCrossingTask.inGoal; rewrite ?Hagent, ?Hin, ?Hreached; reflexivity.
        -- eexists _, _. split; [ reflexivity | ].
           apply (Server.check_violated world (Server.GapTask this));
             cbn; unfold GapCrossingTask.inGoal; rewrite ?Hagent, ?Hin; reflexivity.
    + eexists _, _. split; [ reflexivity | ]. apply Server.check_failed; reflexivity.
  - unfold GapCrossingTaskV2.checkTermination.
    destruct (PhysicsWorld.getBody world "agent") as [agent|] eqn:Hagent.
    + destruct (PrimFloat.ltb (y (position agent)) (-5)) eqn:Hfell.
      * eexists _, _. split; [ reflexivity | ]. apply Server.check_failed; reflexivity.
      * destruct (PrimFloat.ltb _ (JS.Math_abs (z (position agent)))) eqn:Hside.
        { eexists _, _. split; [ reflexivity | ]. apply Server.check_failed; reflexivity. }
        destruct (inside (GapCrossingTaskV2.goalZone this) (position agent)) eqn:Hin.
        -- cbn [GapCrossingTaskV2.set_successSteps GapCrossingTaskV2.requiredSuccessSteps
                GapCrossingTaskV2.successSteps].
           destruct (_ <=? _)%nat eqn:Hreached; eexists _, _; (split; [ reflexivity | ]);
             apply (Server.check_compliant world (Server.GapTaskV2 this));
             cbn; unfold GapCrossingTaskV2.inGoal; rewrite ?Hagent, ?Hin, ?Hreached; reflexivity.
        -- eexists _, _. split; [ reflexivity | ].
           apply (Server.check_violated world (Server.GapTaskV2 this));
             cbn; unfold GapCrossingTaskV2.inGoal; rewrite ?Hagent, ?Hin; reflexivity.
    + eexists _, _. split; [ reflexivity | ]. apply Server.check_failed; reflexivity.
  - unfold ThrowBlockTask.checkTermination.
    destruct (PhysicsWorld.getBody world "block") as [block|] eqn:Hblock;
      [ destruct (PhysicsWorld.getBody world "agent") as [agent|] eqn:Hagent | ].
    + destruct (PrimFloat.ltb (y (position block)) (-2)) eqn:Hblockfell.
      { eexists _, _. split; [ reflexivity | ]. apply Server.check_failed; reflexivity. }
      destruct (PrimFloat.ltb (y (position agent)) (-2)) eqn:Hagentfell.
      { eexists _, _. split; [ reflexivity | ]. apply Server.check_failed; reflexivity. }
      destruct (ThrowBlockTask.inBasketAtRest (ThrowBlockTask.basketBounds this) block) eqn:Hin.
      * cbn [ThrowBlockTask.set_successSteps ThrowBlockTask.requiredSuccessSteps
             ThrowBlockTask.successSteps].
        destruct (_ <=? _)%nat eqn:Hreached; eexists _, _; (split; [ reflexivity | ]);
          apply (Server.check_compliant world (Server.ThrowTask this));
          cbn; rewrite ?Hblock, ?Hin, ?Hreached; reflexivity.
      * eexists _, _. split; [ reflexivity | ].
        apply (Server.check_violated world (Server.ThrowTask this));
          cbn; rewrite ?Hblock, ?Hin; reflexivity.
    + eexists _, _. split; [ reflexivity | ]. apply Server.check_failed; reflexivity.
    + eexists _, _. split; [ reflexivity | ]. apply Server.check_failed; reflexivity.
  - unfold ThrowBlockTaskV2.checkTermination.
    destruct (PhysicsWorld.getBody world "block") as [block|] eqn:Hblock;
      [ destruct (PhysicsWorld.getBody world "agent") as [agent|] eqn:Hagent | ].
    + destruct (PrimFloat.ltb (y (position block)) (-2)) eqn:Hblockfell.
      { eexists _, _. split; [ reflexivity | ]. apply Server.check_failed; reflexivity. }
      destruct (PrimFloat.ltb (y (position agent)) (-2)) eqn:Hagentfell.
      { eexists _, _. split; [ reflexivity | ]. apply Server.check_failed; reflexivity. }
      destruct (ThrowBlockTask.inBasketAtRest (ThrowBlockTaskV2.basketBounds this) block) eqn:Hin.
      * cbn [ThrowBlockTaskV2.set_successSteps ThrowBlockTaskV2.requiredSuccessSteps
             ThrowBlockTaskV2.successSteps].
        destruct (_ <=? _)%nat eqn:Hreached; eexists _, _; (split; [ reflexivity | ]);
          apply (Server.check_compliant world (Server.ThrowTaskV2 this));
          cbn; rewrite ?Hblock, ?Hin, ?Hreached; reflexivity.
      * eexists _, _. split; [ reflexivity | ].
        apply (Server.check_violated world (Server.ThrowTaskV2 this));
          cbn; rewrite ?Hblock, ?Hin; reflexivity.
    + eexists _, _. split; [ reflexivity | ]. apply Server.check_failed; reflexivity.
    + eexists _, _. split; [ reflexivity | ]. apply Server.check_failed; reflexivity.
Qed.

End Streak.

Section StreakHistory.
Context `{Host}.






(** Every constructor leaves the counter at zero and requires five
    consecutive compliant checks. *)
Lemma construct_fresh (c : Server.TaskClass) (world : PhysicsWorld.t) (config : Config.t) :
  Server.successSteps (snd (Server.construct c world config)) = 0
  /\ Server.requiredSuccessSteps (snd (Server.construct c world config)) = 5.
Proof.
  destruct c; unfold Server.construct, GapCrossingTask.new, GapCrossingTaskV2.new,
    ThrowBlockTask.new, ThrowBlockTaskV2.new, ThrowBlockTask.buildScene,
    BaseTask.randomInRange;
    destruct (BaseTask.seededRandom config) as [r config']; try (split; reflexivity).
  destruct (Config.landingZoneStart config), (Config.landingZoneEnd config),
    (Config.landingZoneWidth config); split; reflexivity.
Qed.


End StreakHistory.



(** ** Sessions the server can hold *)

Section Sessions.
Context `{Host}.

Lemma present_putBody_eq (w : PhysicsWorld.t) (name : string) (b : Body) :
  Server.present (PhysicsWorld.putBody w name b) name = true.
Proof. unfold Server.present. rewrite getBody_putBody_eq. reflexivity. Qed.

Lemma present_putBody_ne (w : PhysicsWorld.t) (name other : string) (b : Body) :
  name <> other ->
  Server.present (PhysicsWorld.putBody w name b) other = Server.present w other.
Proof. intros Hne. unfold Server.present. rewrite getBody_putBody_ne by exact Hne. reflexivity. Qed.

Lemma present_addBody_eq (w : PhysicsWorld.t) (name : string) (b : Body) :
  Server.present (PhysicsWorld.addBody w name b) name = true.
Proof. unfold Server.present. rewrite getBody_addBody_eq. reflexivity. Qed.

Lemma present_addBody_ne (w : PhysicsWorld.t) (name other : string) (b : Body) :
  name <> other ->
  Server.present (PhysicsWorld.addBody w name b) other = Server.present w other.
Proof. intros Hne. unfold Server.present. rewrite getBody_addBody_ne by exact Hne. reflexivity. Qed.

Lemma present_step (w : PhysicsWorld.t) (name : string) :
  Server.present (PhysicsWorld.step w) name = Server.present w name.
Proof.
  unfold Server.present, PhysicsWorld.step, PhysicsWorld.getBody.
  destruct (CANNON_step _ _ _ _) as [e next]. cbn [PhysicsWorld.bodies].
  rewrite Map_get_map. destruct (PhysicsWorld.Map_get _ name); reflexivity.
Qed.

Lemma present_Some (w : PhysicsWorld.t) (name : string) :
  Server.present w name = true -> exists b, PhysicsWorld.getBody w name = Some b.
Proof.
  unfold Server.present. destruct (PhysicsWorld.getBody w name) as [b|]; [ eauto | discriminate ].
Qed.

Lemma bodiesPresent_step (w : PhysicsWorld.t) (task : Server.Task) :
  Server.bodiesPresent (PhysicsWorld.step w) task = Server.bodiesPresent w task.
Proof. destruct task; cbn [Server.bodiesPresent]; rewrite ?present_step; reflexivity. Qed.

Lemma bodiesPresent_set (w : PhysicsWorld.t) (task : Server.Task) (n : nat) :
  Server.bodiesPresent w (Server.set_successSteps task n) = Server.bodiesPresent w task.
Proof. destruct task; reflexivity. Qed.

Lemma readsClock_set (task : Server.Task) (n : nat) :
  Server.readsClock (Server.set_successSteps task n) = Server.readsClock task.
Proof. destruct task; reflexivity. Qed.

(** Every constructor puts the bodies of its task into the world. *)
Lemma construct_ok (c : Server.TaskClass) (world : PhysicsWorld.t) (config : Config.t) :
  Server.bodiesPresent (fst (fst (Server.construct c world config)))
    (snd (Server.construct c world config)) = true
  /\ Server.isTaskInstance (snd (Server.construct c world config)) = true
  /\ (Server.readsClock (snd (Server.construct c world config)) = true -> c = Server.GapV2).
Proof.
  destruct c; unfold Server.construct, GapCrossingTask.new, GapCrossingTaskV2.new,
    ThrowBlockTask.new, ThrowBlockTaskV2.new, ThrowBlockTask.buildScene,
    BaseTask.randomInRange;
    destruct (BaseTask.seededRandom config) as [r config'].
  - cbn [fst snd Server.bodiesPresent Server.isTaskInstance Server.readsClock].
    unfold PhysicsWorld.createCapsule. rewrite present_addBody_eq.
    repeat split; intros; discriminate.
  - cbn [fst snd Server.bodiesPresent Server.isTaskInstance Server.readsClock].
    unfold PhysicsWorld.createCapsule, PhysicsWorld.createBox.
    repeat first [ rewrite present_addBody_eq
                 | rewrite present_addBody_ne by discriminate ].
    repeat split; intros; discriminate.
  - destruct (Config.landingZoneStart config), (Config.landingZoneEnd config),
      (Config.landingZoneWidth config);
      cbn [fst snd Server.bodiesPresent Server.isTaskInstance Server.readsClock];
      unfold PhysicsWorld.createCapsule; rewrite getBody_addBody_eq, present_putBody_eq;
      repeat split; reflexivity.
  - cbn [fst snd Server.bodiesPresent Server.isTaskInstance Server.readsClock].
    unfold PhysicsWorld.createCapsule, PhysicsWorld.createBox.
    repeat first [ rewrite present_addBody_eq
                 | rewrite present_addBody_ne by discriminate ].
    repeat split; intros; discriminate.
Qed.

Ltac crack_switch :=
  match goal with
  | |- context [GapCrossingTask.switch ?a] => destruct (GapCrossingTask.switch a)
  | |- context [GapCrossingTaskV2.switch ?a] => destruct (GapCrossingTaskV2.switch a)
  | |- context [ThrowBlockTask.switch ?a] => destruct (ThrowBlockTask.switch a)
  end;
  repeat match goal with
  | |- context [if ?b then _ else _] => destruct b
  end.

(** Applying an action to a task instance raises nothing, keeps the bodies
    and keeps the class of the task. *)
Lemma applyAction_ok (world : PhysicsWorld.t) (config : Config.t) (task : Server.Task)
    (action : JS.value) (durationScale : option float) (now : Z) :
  Server.isTaskInstance task = true ->
  exists world' task',
    Server.applyAction world config task action durationScale now = JS.Normal (world', task')
    /\ Server.bodiesPresent world' task' = Server.bodiesPresent world task
    /\ Server.readsClock task' = Server.readsClock task
    /\ Server.isTaskInstance task' = true.
Proof.
  intros Hinstance.
  destruct task as [this|this|this|this|]; try discriminate; cbn [Server.applyAction].
  - unfold GapCrossingTask.applyAction.
    destruct (PhysicsWorld.getBody world "agent") as [agent|] eqn:Hagent.
    + crack_switch; (eexists _, _; split; [ reflexivity | ]);
        cbn [Server.bodiesPresent]; rewrite present_putBody_eq;
        unfold Server.present; rewrite Hagent; repeat split.
    + eexists _, _. repeat split.
  - unfold GapCrossingTaskV2.applyAction.
    destruct (PhysicsWorld.getBody world "agent") as [agent|] eqn:Hagent.
    + crack_switch; (eexists _, _; split; [ reflexivity | ]);
        cbn [Server.bodiesPresent]; rewrite present_putBody_eq;
        unfold Server.present; rewrite Hagent; repeat split.
    + eexists _, _. repeat split.
  - unfold ThrowBlockTask.applyAction.
    destruct (PhysicsWorld.getBody world "agent") as [agent|] eqn:Hagent;
      destruct (PhysicsWorld.getBody world "block") as [block|] eqn:Hblock;
      try (eexists _, _; repeat split; fail).
    crack_switch; (eexists _, _; split; [ reflexivity | ]);
      cbn [Server.bodiesPresent]; rewrite present_putBody_eq;
      rewrite present_putBody_ne by discriminate; rewrite present_putBody_eq;
      unfold Server.present; rewrite Hagent, Hblock; repeat split.
  - unfold ThrowBlockTaskV2.applyAction.
    destruct (PhysicsWorld.getBody world "agent") as [agent|] eqn:Hagent;
      destruct (PhysicsWorld.getBody world "block") as [block|] eqn:Hblock;
      try (eexists _, _; repeat split; fail).
    crack_switch; (eexists _, _; split; [ reflexivity | ]);
      cbn [Server.bodiesPresent]; rewrite present_putBody_eq;
      rewrite present_putBody_ne by discriminate; rewrite present_putBody_eq;
      unfold Server.present; rewrite Hagent, Hblock; repeat split.
Qed.

End Sessions.

Section Stepping.
Context `{Host}.

(** The tick loop on a task instance runs to its end. *)
Lemma ticks_ok (clock : nat -> Z) (config : Config.t) (action : JS.value)
    (durationScale : option float) (n : nat) :
  forall (i : nat) (world : PhysicsWorld.t) (task : Server.Task),
    Server.isTaskInstance task = true ->
    exists world' task',
      Server.ticks n i clock config action durationScale world task = (None, world', task')
      /\ Server.bodiesPresent world' task' = Server.bodiesPresent world task
      /\ Server.readsClock task' = Server.readsClock task
      /\ Server.isTaskInstance task' = true.
Proof.
  induction n as [|n IH]; intros i world task Hinstance.
  - exists world, task. repeat split. exact Hinstance.
  - cbn [Server.ticks].
    destruct (applyAction_ok world config task action durationScale (clock i) Hinstance)
      as (world1 & task1 & Happly & Hbodies1 & Hclock1 & Hinstance1).
    rewrite Happly.
    destruct (IH (S i) (PhysicsWorld.step world1) task1 Hinstance1)
      as (world' & task' & Hticks & Hbodies & Hclock & Hinstance').
    exists world', task'. split; [ exact Hticks | ].
    rewrite Hbodies, bodiesPresent_step, Hbodies1, Hclock, Hclock1. repeat split.
    exact Hinstance'.
Qed.

Lemma checkTermination_ok (world : PhysicsWorld.t) (task : Server.Task) :
  Server.isTaskInstance task = true ->
  exists result task',
    Server.checkTermination world task = JS.Normal (result, task')
    /\ Server.bodiesPresent world task' = Server.bodiesPresent world task
    /\ Server.readsClock task' = Server.readsClock task
    /\ Server.isTaskInstance task' = true.
Proof.
  intros Hinstance.
  destruct (checkTermination_outcome world task Hinstance) as (result & task' & Hcheck & Hout).
  exists result, task'. split; [ exact Hcheck | ].
  destruct Hout; rewrite ?bodiesPresent_set, ?readsClock_set, ?isTaskInstance_set;
    repeat split; exact Hinstance.
Qed.

(** With its bodies present a task instance can be observed. *)
Lemma getObservation_ok (callee : string) (world : PhysicsWorld.t) (config : Config.t)
    (task : Server.Task) :
  Server.isTaskInstance task = true ->
  Server.bodiesPresent world task = true ->
  exists observation,
    Server.getObservation callee world config task = JS.Normal observation.
Proof.
  intros Hinstance Hbodies.
  destruct task as [this|this|this|this|]; try discriminate;
    cbn [Server.bodiesPresent] in Hbodies; cbn [Server.getObservation];
    try (apply andb_prop in Hbodies; destruct Hbodies as [Hagent Hblock];
         apply present_Some in Hblock; destruct Hblock as [block Hblock]);
    try rename Hbodies into Hagent;
    apply present_Some in Hagent; destruct Hagent as [agent Hagent];
    unfold GapCrossingTask.getObservation, GapCrossingTaskV2.getObservation,
      ThrowBlockTask.getObservation, ThrowBlockTaskV2.getObservation;
    rewrite ?(getBodyState_Some _ _ _ Hagent), ?(getBodyState_Some _ _ _ Hblock);
    eexists; reflexivity.
Qed.

(** A step on a live session that holds a task instance. *)
Lemma stepEnvironment_live (environments : gmap string Server.Env) (sessionId : string)
    (env : Server.Env) (action : JS.value) (durationScale : option float)
    (clock : nat -> Z) :
  environments !! sessionId = Some env ->
  Server.done env = false ->
  Server.isTaskInstance (Server.task env) = true ->
  exists world' task1 result task',
    Server.ticks (Z.to_nat (Config.physicsTicksPerStep (Server.config env))) 0 clock
      (Server.config env) action durationScale (Server.world env) (Server.task env)
    = (None, world', task1)
    /\ Server.checkTermination world' task1 = JS.Normal (result, task')
    /\ Server.bodiesPresent world' task' = Server.bodiesPresent (Server.world env) (Server.task env)
    /\ Server.readsClock task' = Server.readsClock (Server.task env)
    /\ Server.isTaskInstance task' = true
    /\ let stepCount := (Server.stepCount env + 1)%Z in
       let reward :=
         Server.getReward task' (TerminationResult.done result)
           (TerminationResult.success result) in
       let env_done :=
         TerminationResult.done result
         || (Config.maxSteps (Server.config env) <=? stepCount)%Z in
       let total := (Server.totalReward env + reward)%float in
       Server.stepEnvironment environments sessionId action durationScale clock
       = (Server.map_completion
            (fun observation =>
               Server.mkStepResult observation reward env_done
                 (Server.mkInfo (Some stepCount) (Some (TerminationResult.success result))
                    (if env_done && negb (TerminationResult.done result)
                     then "timeout" else TerminationResult.reason result)
                    (Some total)))
            (Server.getObservation "env.task.getObservation" world' (Server.config env) task'),
          <[sessionId := Server.mkEnv world' task' (Server.config env) stepCount env_done total]>
            environments).
Proof.
  intros Hlookup Hlive Hinstance.
  destruct (ticks_ok clock (Server.config env) action durationScale
              (Z.to_nat (Config.physicsTicksPerStep (Server.config env))) 0
              (Server.world env) (Server.task env) Hinstance)
    as (world' & task1 & Hticks & Hbodies1 & Hclock1 & Hinstance1).
  destruct (checkTermination_ok world' task1 Hinstance1)
    as (result & task' & Hcheck & Hbodies & Hclock & Hinstance').
  exists world', task1, result, task'.
  split; [ exact Hticks | ]. split; [ exact Hcheck | ].
  split; [ rewrite Hbodies; exact Hbodies1 | ].
  split; [ rewrite Hclock; exact Hclock1 | ].
  split; [ exact Hinstance' | ].
  cbv zeta. unfold Server.stepEnvironment.
  rewrite Hlookup, Hlive, Hticks, Hcheck. reflexivity.
Qed.

Lemma registryOk_insert (environments : gmap string Server.Env) (sessionId : string)
    (env : Server.Env) :
  Server.registryOk environments -> Server.sessionOk env = true ->
  Server.registryOk (<[sessionId := env]> environments).
Proof.
  intros Hok Henv sid env' Hlookup.
  destruct (decide (sessionId = sid)) as [->|Hne].
  - rewrite lookup_insert_eq in Hlookup. injection Hlookup as <-. exact Henv.
  - rewrite lookup_insert_ne in Hlookup by exact Hne. eapply Hok; eauto.
Qed.

Lemma createEnvironment_ok (environments : gmap string Server.Env) (sessionId : string)
    (config : Server.Overrides) :
  Server.registryOk environments ->
  Server.registryOk (snd (Server.createEnvironment environments sessionId config)).
Proof.
  intros Hok. unfold Server.createEnvironment.
  destruct (Server.TASKS _) as [[c| |]|]; cbn [snd]; try exact Hok.
  - pose proof (construct_ok c
      (PhysicsWorld.new (Config.gravity (Server.merge config))
         (Config.timeStep (Server.merge config))) (Server.merge config))
      as (Hbodies & Hinstance & _).
    destruct (Server.construct c _ _) as [[world config'] task]. cbn [fst snd] in *.
    apply registryOk_insert; [ exact Hok | ].
    unfold Server.sessionOk. cbn [Server.task Server.world].
    destruct task; try discriminate; exact Hbodies.
  - apply registryOk_insert; [ exact Hok | reflexivity ].
Qed.

Lemma stepEnvironment_ok (environments : gmap string Server.Env) (sessionId : string)
    (action : JS.value) (durationScale : option float) (clock : nat -> Z) :
  Server.registryOk environments ->
  Server.registryOk (snd (Server.stepEnvironment environments sessionId action durationScale clock)).
Proof.
  intros Hok.
  destruct (environments !! sessionId) as [env|] eqn:Hlookup;
    [ | unfold Server.stepEnvironment; rewrite Hlookup; exact Hok ].
  destruct (Server.done env) eqn:Hlive;
    [ unfold Server.stepEnvironment; rewrite Hlookup, Hlive; exact Hok | ].
  pose proof (Hok _ _ Hlookup) as Henv.
  destruct (Server.isTaskInstance (Server.task env)) eqn:Hinstance.
  - destruct (stepEnvironment_live environments sessionId env action durationScale clock
                Hlookup Hlive Hinstance)
      as (world' & task1 & result & task' & _ & _ & Hbodies & _ & Hinstance' & Hstep).
    cbv zeta in Hstep. rewrite Hstep. cbn [snd].
    apply registryOk_insert; [ exact Hok | ].
    unfold Server.sessionOk in *. cbn [Server.task Server.world].
    destruct task'; try discriminate;
      (rewrite Hbodies; destruct (Server.task env); try discriminate; exact Henv).
  - destruct (Server.task env) eqn:Htask; try discriminate.
    unfold Server.stepEnvironment. rewrite Hlookup, Hlive, Htask.
    destruct (Z.to_nat _) as [|n]; cbn [Server.ticks Server.applyAction Server.not_a_function
      Server.checkTermination snd];
      (apply registryOk_insert; [ exact Hok | ]);
      unfold Server.sessionOk; cbn [Server.task Server.done]; rewrite ?Hlive; reflexivity.
Qed.

Lemma reachable_ok (environments : gmap string Server.Env) :
  Server.reachable environments -> Server.registryOk environments.
Proof.
  induction 1 as [| environments sessionId config _ IH
                  | environments sessionId action durationScale clock _ IH].
  - intros sid env Hlookup. rewrite lookup_empty in Hlookup. discriminate.
  - apply createEnvironment_ok. exact IH.
  - apply stepEnvironment_ok. exact IH.
Qed.

End Stepping.

(** ** Steps on done and on live sessions *)

Section Protocol.
Context `{Host}.

(** C2. On a session whose done flag is set, a step is a no-op and not an
    error: it returns the observation of the session as it stands, reward
    0, done [true] and the marker [already_done], and the session map, so
    every body, the step counter and the cumulative reward, is unchanged. *)
Theorem C2_step_after_done_is_a_no_op (environments : gmap string Server.Env)
    (sessionId : string) (env : Server.Env) (action : JS.value)
    (durationScale : option float) (clock : nat -> Z) :
  Server.reachable environments ->
  environments !! sessionId = Some env ->
  Server.done env = true ->
  exists observation,
    Server.getObservation "env.task.getObservation" (Server.world env) (Server.config env)
      (Server.task env) = JS.Normal observation
    /\ Server.stepEnvironment environments sessionId action durationScale clock
       = (JS.Normal
            (Server.mkStepResult observation 0 true
               (Server.mkInfo None None "already_done" None)),
          environments).
Proof.
  intros Hreach Hlookup Hdone.
  pose proof (reachable_ok _ Hreach _ _ Hlookup) as Hok.
  unfold Server.sessionOk in Hok.
  assert (Hinstance : Server.isTaskInstance (Server.task env) = true).
  { destruct (Server.task env); try reflexivity. rewrite Hdone in Hok. discriminate. }
  assert (Hbodies : Server.bodiesPresent (Server.world env) (Server.task env) = true).
  { destruct (Server.task env); try discriminate; exact Hok. }
  destruct (getObservation_ok "env.task.getObservation" (Server.world env) (Server.config env)
              (Server.task env) Hinstance Hbodies) as [observation Hobs].
  exists observation. split; [ exact Hobs | ].
  unfold Server.stepEnvironment. rewrite Hlookup, Hdone, Hobs. reflexivity.
Qed.

(** C5. A step on a live session that is not done and holds a task
    instance returns normally. The session is then done exactly when the
    task's check reported termination or the advanced step counter has
    reached [maxSteps]; the reason returned is [timeout] when the session is
    done without the task having terminated, and the task's reason
    otherwise; the reward returned is added to the cumulative reward. *)
Theorem C5_live_step (environments : gmap string Server.Env) (sessionId : string)
    (env : Server.Env) (action : JS.value) (durationScale : option float)
    (clock : nat -> Z) :
  Server.reachable environments ->
  environments !! sessionId = Some env ->
  Server.done env = false ->
  Server.isTaskInstance (Server.task env) = true ->
  exists (r : Server.StepResult) (env' : Server.Env) (result : TerminationResult.t),
    Server.stepEnvironment environments sessionId action durationScale clock
    = (JS.Normal r, <[sessionId := env']> environments)
    /\ (exists task1,
         Server.ticks (Z.to_nat (Config.physicsTicksPerStep (Server.config env))) 0 clock
           (Server.config env) action durationScale (Server.world env) (Server.task env)
         = (None, Server.world env', task1)
         /\ Server.checkTermination (Server.world env') task1
            = JS.Normal (result, Server.task env'))
    /\ Server.stepCount env' = (Server.stepCount env + 1)%Z
    /\ Server.done env'
       = TerminationResult.done result
         || (Config.maxSteps (Server.config env) <=? Server.stepCount env + 1)%Z
    /\ Server.result_done r = Server.done env'
    /\ Server.info_reason (Server.info r)
       = (if Server.done env' && negb (TerminationResult.done result)
          then "timeout" else TerminationResult.reason result)
    /\ Server.reward r
       = Server.getReward (Server.task env') (TerminationResult.done result)
           (TerminationResult.success result)
    /\ Server.totalReward env' = (Server.totalReward env + Server.reward r)%float
    /\ Server.info_totalReward (Server.info r) = Some (Server.totalReward env')
    /\ Server.info_step (Server.info r) = Some (Server.stepCount env').
Proof.
  intros Hreach Hlookup Hlive Hinstance.
  pose proof (reachable_ok _ Hreach _ _ Hlookup) as Hok.
  assert (Hbodies : Server.bodiesPresent (Server.world env) (Server.task env) = true).
  { unfold Server.sessionOk in Hok. destruct (Server.task env); try discriminate; exact Hok. }
  destruct (stepEnvironment_live environments sessionId env action durationScale clock
              Hlookup Hlive Hinstance)
    as (world' & task1 & result & task' & Hticks & Hcheck & Hbodies' & _ & Hinstance' & Hstep).
  rewrite Hbodies in Hbodies'.
  destruct (getObservation_ok "env.task.getObservation" world' (Server.config env) task'
              Hinstance' Hbodies') as [observation Hobs].
  cbv zeta in Hstep. rewrite Hobs in Hstep. cbn [Server.map_completion] in Hstep.
  eexists _, _, result. split; [ exact Hstep | ].
  cbn [Server.world Server.task Server.stepCount Server.done Server.totalReward
       Server.result_done Server.info Server.info_reason Server.reward
       Server.info_totalReward Server.info_step].
  split; [ exists task1; split; assumption | ].
  repeat split.
Qed.

End Protocol.

(** C2 at a session that ran out of its one-step budget. *)
Lemma C2_step_after_done_is_a_no_op_witness :
  fst (Server.stepEnvironment (H := Toy.host) Scenario.doneRegistry "agent-1" (JS.Str "jump")
         None (fun _ => Scenario.t0))
  = Server.map_completion
      (fun observation =>
         Server.mkStepResult observation 0 true (Server.mkInfo None None "already_done" None))
      (Server.getObservation (H := Toy.host) "env.task.getObservation"
         (Server.world (Scenario.session Scenario.doneRegistry))
         (Server.config (Scenario.session Scenario.doneRegistry))
         (Server.task (Scenario.session Scenario.doneRegistry)))
  /\ snd (Server.stepEnvironment (H := Toy.host) Scenario.doneRegistry "agent-1" (JS.Str "jump")
            None (fun _ => Scenario.t0))
     = Scenario.doneRegistry.
Proof.
  assert (Hreach : Server.reachable (H := Toy.host) Scenario.doneRegistry).
  { apply Server.reachable_step. apply Server.reachable_reset. apply Server.reachable_start. }
  assert (Hlookup : Scenario.doneRegistry !! "agent-1"
                    = Some (Scenario.session Scenario.doneRegistry))
    by (vm_compute; reflexivity).
  assert (Hdone : Server.done (Scenario.session Scenario.doneRegistry) = true)
    by (vm_compute; reflexivity).
  destruct (C2_step_after_done_is_a_no_op (H := Toy.host) Scenario.doneRegistry "agent-1"
              (Scenario.session Scenario.doneRegistry) (JS.Str "jump") None
              (fun _ => Scenario.t0) Hreach Hlookup Hdone)
    as (observation & Hobs & Hstep).
  rewrite Hstep, Hobs. split; reflexivity.
Defined.

(** C5 at the only live step of a session with a step budget of one: the
    session is done afterwards. *)
Lemma C5_live_step_witness :
  Server.done (H := Toy.host) <$> (Scenario.doneRegistry !! "agent-1") = Some true.
Proof.
  assert (Hreach : Server.reachable (H := Toy.host) Scenario.freshRegistry).
  { apply Server.reachable_reset. apply Server.reachable_start. }
  assert (Hlookup : Scenario.freshRegistry !! "agent-1"
                    = Some (Scenario.session Scenario.freshRegistry))
    by (vm_compute; reflexivity).
  destruct (C5_live_step (H := Toy.host) Scenario.freshRegistry "agent-1"
              (Scenario.session Scenario.freshRegistry) (JS.Str "forward") None
              (fun _ => Scenario.t0) Hreach Hlookup eq_refl eq_refl)
    as (r & env' & result & Hstep & _ & _ & Hdone & _).
  unfold Scenario.doneRegistry. rewrite Hstep. cbn [snd].
  rewrite lookup_insert_eq. cbn. rewrite Hdone.
  rewrite orb_true_r. reflexivity.
Defined.

(** ** Reproducible trajectories *)

Section Determinism.
Context `{Host}.

(** Only the second traversal revision looks at the clock reading. *)
Lemma applyAction_clock (world : PhysicsWorld.t) (config : Config.t) (task : Server.Task)
    (action : JS.value) (durationScale : option float) (now1 now2 : Z) :
  Server.readsClock task = false ->
  Server.applyAction world config task action durationScale now1
  = Server.applyAction world config task action durationScale now2.
Proof. destruct task; try discriminate; reflexivity. Qed.

Lemma applyAction_readsClock (world : PhysicsWorld.t) (config : Config.t)
    (task : Server.Task) (action : JS.value) (durationScale : option float) (now : Z)
    (world' : PhysicsWorld.t) (task' : Server.Task) :
  Server.applyAction world config task action durationScale now = JS.Normal (world', task') ->
  Server.readsClock task' = Server.readsClock task.
Proof.
  intros Happly.
  destruct (Server.isTaskInstance task) eqn:Hinstance.
  - destruct (applyAction_ok world config task action durationScale now Hinstance)
      as (w & t & Happly' & _ & Hclock & _).
    rewrite Happly in Happly'. injection Happly' as -> ->. exact Hclock.
  - destruct task; discriminate.
Qed.

Lemma ticks_clock (clock1 clock2 : nat -> Z) (config : Config.t) (action : JS.value)
    (durationScale : option float) (n : nat) :
  forall (i : nat) (world : PhysicsWorld.t) (task : Server.Task),
    (Server.readsClock task = true -> forall j, clock1 j = clock2 j) ->
    Server.ticks n i clock1 config action durationScale world task
    = Server.ticks n i clock2 config action durationScale world task.
Proof.
  induction n as [|n IH]; intros i world task Hclock; [ reflexivity | ].
  cbn [Server.ticks].
  assert (Hsame : Server.applyAction world config task action durationScale (clock1 i)
                  = Server.applyAction world config task action durationScale (clock2 i)).
  { destruct (Server.readsClock task) eqn:Hreads.
    - rewrite (Hclock eq_refl i). reflexivity.
    - apply applyAction_clock. exact Hreads. }
  rewrite Hsame.
  destruct (Server.applyAction world config task action durationScale (clock2 i))
    as [[world' task']|e] eqn:Happly; [ | reflexivity ].
  apply IH. rewrite (applyAction_readsClock _ _ _ _ _ _ _ _ Happly). exact Hclock.
Qed.

Lemma ticks_readsClock (clock : nat -> Z) (config : Config.t) (action : JS.value)
    (durationScale : option float) (n : nat) :
  forall (i : nat) (world : PhysicsWorld.t) (task : Server.Task),
    Server.readsClock (snd (Server.ticks n i clock config action durationScale world task))
    = Server.readsClock task.
Proof.
  induction n as [|n IH]; intros i world task; [ reflexivity | ].
  cbn [Server.ticks].
  destruct (Server.applyAction world config task action durationScale (clock i))
    as [[world' task']|e] eqn:Happly; [ | reflexivity ].
  rewrite IH. eapply applyAction_readsClock. exact Happly.
Qed.

Lemma checkTermination_readsClock (world : PhysicsWorld.t) (task : Server.Task)
    (result : TerminationResult.t) (task' : Server.Task) :
  Server.checkTermination world task = JS.Normal (result, task') ->
  Server.readsClock task' = Server.readsClock task.
Proof.
  intros Hcheck.
  destruct (Server.isTaskInstance task) eqn:Hinstance.
  - destruct (checkTermination_ok world task Hinstance) as (r & t & Hcheck' & _ & Hclock & _).
    rewrite Hcheck in Hcheck'. injection Hcheck' as -> ->. exact Hclock.
  - destruct task; discriminate.
Qed.

(** What a step returns, and the session it leaves, depend on the session
    alone: not on its identifier, not on the other sessions of the map, and
    on the clock only if the task reads it. *)
Lemma stepEnvironment_local (environments1 environments2 : gmap string Server.Env)
    (sessionId1 sessionId2 : string) (env : Server.Env) (action : JS.value)
    (durationScale : option float) (clock1 clock2 : nat -> Z) :
  environments1 !! sessionId1 = Some env ->
  environments2 !! sessionId2 = Some env ->
  (Server.readsClock (Server.task env) = true -> forall j, clock1 j = clock2 j) ->
  fst (Server.stepEnvironment environments1 sessionId1 action durationScale clock1)
  = fst (Server.stepEnvironment environments2 sessionId2 action durationScale clock2)
  /\ exists env',
      snd (Server.stepEnvironment environments1 sessionId1 action durationScale clock1)
        !! sessionId1 = Some env'
      /\ snd (Server.stepEnvironment environments2 sessionId2 action durationScale clock2)
           !! sessionId2 = Some env'
      /\ Server.readsClock (Server.task env') = Server.readsClock (Server.task env).
Proof.
  intros Hlookup1 Hlookup2 Hclock.
  unfold Server.stepEnvironment. rewrite Hlookup1, Hlookup2.
  destruct (Server.done env) eqn:Hdone.
  - cbn [fst snd]. split; [ reflexivity | ]. exists env. repeat split; assumption.
  - rewrite (ticks_clock clock1 clock2 _ _ _ _ _ _ _ Hclock).
    pose proof (ticks_readsClock clock2 (Server.config env) action durationScale
                  (Z.to_nat (Config.physicsTicksPerStep (Server.config env))) 0
                  (Server.world env) (Server.task env)) as Hreads.
    destruct (Server.ticks _ 0 clock2 _ _ _ _ _) as [[[e|] world'] task1];
      cbn [snd] in Hreads.
    + cbn [fst snd]. split; [ reflexivity | ].
      eexists. rewrite !lookup_insert_eq. repeat split. exact Hreads.
    + destruct (Server.checkTermination world' task1) as [[result task']|e] eqn:Hcheck.
      * cbn [fst snd]. split; [ reflexivity | ].
        eexists. rewrite !lookup_insert_eq. repeat split.
        cbn [Server.task]. rewrite (checkTermination_readsClock _ _ _ _ Hcheck). exact Hreads.
      * cbn [fst snd]. split; [ reflexivity | ].
        eexists. rewrite !lookup_insert_eq. repeat split. exact Hreads.
Qed.

Lemma drive_local (clocked : bool) (calls1 calls2 : list Server.StepCall) :
  Forall2 (Server.sameRequest clocked) calls1 calls2 ->
  forall (environments1 environments2 : gmap string Server.Env)
         (sessionId1 sessionId2 : string) (env : Server.Env),
    environments1 !! sessionId1 = Some env ->
    environments2 !! sessionId2 = Some env ->
    (Server.readsClock (Server.task env) = true -> clocked = true) ->
    Server.drive environments1 sessionId1 calls1 = Server.drive environments2 sessionId2 calls2.
Proof.
  induction 1 as [|c1 c2 calls1 calls2 (Haction & Hscale & Hclock) _ IH];
    intros environments1 environments2 sessionId1 sessionId2 env Hlookup1 Hlookup2 Hreads;
    [ reflexivity | ].
  cbn [Server.drive]. rewrite Haction, Hscale.
  destruct (stepEnvironment_local environments1 environments2 sessionId1 sessionId2 env
              (Server.call_action c2) (Server.call_durationScale c2)
              (Server.call_clock c1) (Server.call_clock c2) Hlookup1 Hlookup2)
    as (Hfst & env' & Hnext1 & Hnext2 & Hreads').
  { intros Htask. apply Hclock. apply Hreads. exact Htask. }
  destruct (Server.stepEnvironment environments1 _ _ _ _) as [r1 next1].
  destruct (Server.stepEnvironment environments2 _ _ _ _) as [r2 next2].
  cbn [fst snd] in *. subst r2. f_equal.
  apply (IH next1 next2 sessionId1 sessionId2 env' Hnext1 Hnext2).
  rewrite Hreads'. exact Hreads.
Qed.

(** A reset returns the same thing and installs the same session whatever
    the identifier and the other sessions. *)
Lemma createEnvironment_local (environments1 environments2 : gmap string Server.Env)
    (sessionId1 sessionId2 : string) (config : Server.Overrides) :
  fst (Server.createEnvironment environments1 sessionId1 config)
  = fst (Server.createEnvironment environments2 sessionId2 config)
  /\ forall observation,
      fst (Server.createEnvironment environments1 sessionId1 config) = JS.Normal observation ->
      exists env,
        snd (Server.createEnvironment environments1 sessionId1 config) !! sessionId1 = Some env
        /\ snd (Server.createEnvironment environments2 sessionId2 config) !! sessionId2 = Some env
        /\ (Server.readsClock (Server.task env) = true -> Server.usesClock config = true).
Proof.
  unfold Server.createEnvironment, Server.usesClock.
  destruct (Server.TASKS _) as [[c| |]|]; cbn [fst snd];
    try (split; [ reflexivity | intros observation Hobs; discriminate ]).
  pose proof (construct_ok c
    (PhysicsWorld.new (Config.gravity (Server.merge config))
       (Config.timeStep (Server.merge config))) (Server.merge config))
    as (_ & _ & Hclass).
  destruct (Server.construct c _ _) as [[world config'] task]. cbn [fst snd] in *.
  split; [ reflexivity | ]. intros observation _.
  eexists. rewrite !lookup_insert_eq. repeat split.
  cbn [Server.task]. intros Hreads. rewrite (Hclass Hreads). reflexivity.
Qed.

(** C1, as amended. Two fresh sessions created with the same configuration
    (hence the same seed) and driven with the same actions and parameters
    return the same observations, rewards, done flags and info fields,
    whatever their identifiers and whatever else the session map holds,
    given a deterministic physics step (here: a function) and, for the
    second revision of the traversal task, the same clock readings at the
    ticks: its jump cooldown compares [Date.now()] readings. *)
Theorem C1_same_requests_same_trajectory (environments1 environments2 : gmap string Server.Env)
    (sessionId1 sessionId2 : string) (config : Server.Overrides)
    (calls1 calls2 : list Server.StepCall) :
  Forall2 (Server.sameRequest (Server.usesClock config)) calls1 calls2 ->
  Server.episode environments1 sessionId1 config calls1
  = Server.episode environments2 sessionId2 config calls2.
Proof.
  intros Hcalls. unfold Server.episode.
  destruct (createEnvironment_local environments1 environments2 sessionId1 sessionId2 config)
    as [Hfst Hsession].
  destruct (Server.createEnvironment environments1 sessionId1 config) as [[obs1|e1] next1];
    destruct (Server.createEnvironment environments2 sessionId2 config) as [[obs2|e2] next2];
    cbn [fst snd] in *; try discriminate.
  - injection Hfst as <-.
    destruct (Hsession obs1 eq_refl) as (env & Hnext1 & Hnext2 & Hreads).
    f_equal. eapply drive_local; eauto.
  - injection Hfst as <-. reflexivity.
Qed.

End Determinism.

Lemma same_actions_fast_slow (clocked : bool) :
  clocked = false -> Forall2 (Server.sameRequest clocked) Scenario.fast Scenario.slow.
Proof.
  intros ->. unfold Scenario.fast, Scenario.slow, Scenario.jumps, Server.sameRequest.
  cbn [map seq].
  repeat (constructor; [ split; [ reflexivity | split; [ reflexivity | discriminate ] ] | ]).
  constructor.
Qed.

(** C1 at two first-revision traversal sessions stepped at different
    paces, under different identifiers, the second in a map that already
    holds a session. *)
Lemma C1_same_requests_same_trajectory_witness :
  Server.episode (H := Toy.host) ∅ "agent-1" (Scenario.request "gap" None 42%float)
    Scenario.fast
  = Server.episode (H := Toy.host) Scenario.doneRegistry "agent-2"
      (Scenario.request "gap" None 42%float) Scenario.slow.
Proof.
  apply (C1_same_requests_same_trajectory (H := Toy.host)).
  apply same_actions_fast_slow. reflexivity.
Defined.

(** C1 (counterexample). Two fresh second-revision traversal sessions with
    the same configuration and seed receive the same eight [jump] requests,
    over the same deterministic engine. The first jump is taken at once and
    the agent lands during the seventh step. When the requests arrive 10 ms
    apart the cooldown has not elapsed and the agent stays on the floor;
    when they arrive a second apart it jumps again: the seventh observation
    differs. *)
Lemma C1_trajectory_depends_on_the_clock :
  let config := Scenario.request "gap" (Some "v2") 42%float in
  let fast := Server.episode (H := Toy.host) ∅ "agent-1" config Scenario.fast in
  let slow := Server.episode (H := Toy.host) ∅ "agent-2" config Scenario.slow in
  Forall2 (Server.sameRequest false) Scenario.fast Scenario.slow
  /\ Scenario.heightAt fast 6 = Toy.floor
  /\ PrimFloat.ltb Toy.floor (Scenario.heightAt slow 6) = true
  /\ fast <> slow.
Proof.
  cbv zeta. split; [ apply same_actions_fast_slow; reflexivity | ].
  split; [ vm_compute; reflexivity | ].
  split; [ vm_compute; reflexivity | ].
  intros Heq.
  apply (f_equal (fun trajectory =>
                    PrimFloat.ltb Toy.floor (Scenario.heightAt trajectory 6))) in Heq.
  vm_compute in Heq. discriminate.
Qed.
